(** * LongPortFetcher: symbol translation, raw retrieval and normalisation

    A shallow embedding of [src/data_provider/longport_fetcher.py].

    - Python [str] values are modelled by [string]; the character-level
      predicates ([isspace], [isdigit], [isalpha], [upper]) are the ASCII
      ones, which is the alphabet stock codes are written in.
    - Python [float] is IEEE binary64: it is modelled by the primitive
      [float] type, so that NaN and division by zero behave as in pandas.
    - A pandas [DataFrame] is a row count and an ordered list of named
      columns; the frames live in a store and are passed by reference,
      because [_normalize_data] assigns columns on the caller's object.
    - Exceptions are values of [exn]; code that may raise returns a sum.
    - The import of the SDK and its constructors are parameters
      ([Installation]), as are the client, [strptime] and the pandas
      version ([Libraries]). *)

From Stdlib Require Import Ascii String DecimalString ZArith Floats.
From stdpp Require Import base list strings.

Local Open Scope string_scope.
Local Open Scope list_scope.
Local Open Scope stdpp_scope.

(** ** Python string primitives *)

Module PyStr.

(** [c.isspace()] on ASCII: TAB..CR, FS..US and SPACE. *)
Definition isspace (c : ascii) : bool :=
  let n := nat_of_ascii c in
  (((9 <=? n) && (n <=? 13)) || ((28 <=? n) && (n <=? 32)))%nat.

Definition isdigit_char (c : ascii) : bool :=
  let n := nat_of_ascii c in ((48 <=? n) && (n <=? 57))%nat.

Definition islower_char (c : ascii) : bool :=
  let n := nat_of_ascii c in ((97 <=? n) && (n <=? 122))%nat.

Definition isupper_char (c : ascii) : bool :=
  let n := nat_of_ascii c in ((65 <=? n) && (n <=? 90))%nat.

Definition isalpha_char (c : ascii) : bool :=
  islower_char c || isupper_char c.

Definition upper_char (c : ascii) : ascii :=
  if islower_char c then ascii_of_nat (nat_of_ascii c - 32) else c.

Fixpoint lstrip (s : string) : string :=
  match s with
  | EmptyString => EmptyString
  | String c s' => if isspace c then lstrip s' else s
  end.

Fixpoint rstrip (s : string) : string :=
  match s with
  | EmptyString => EmptyString
  | String c s' =>
      match rstrip s' with
      | EmptyString => if isspace c then EmptyString else String c EmptyString
      | r => String c r
      end
  end.

(** [s.strip()] *)
Definition strip (s : string) : string := rstrip (lstrip s).

(** [c in s] for a one-character [c]. *)
Fixpoint contains (c : ascii) (s : string) : bool :=
  match s with
  | EmptyString => false
  | String d s' => if Ascii.eqb d c then true else contains c s'
  end.

(** [s.split(c)] for a one-character separator: never the empty list. *)
Fixpoint split (c : ascii) (s : string) : list string :=
  match s with
  | EmptyString => [EmptyString]
  | String d s' =>
      if Ascii.eqb d c then EmptyString :: split c s'
      else match split c s' with
           | p :: ps => String d p :: ps
           | [] => [String d EmptyString]
           end
  end.

(** [parts[-1]] *)
Definition last_part (parts : list string) : string :=
  List.last parts EmptyString.

(** [s.upper()] *)
Fixpoint upper (s : string) : string :=
  match s with
  | EmptyString => EmptyString
  | String c s' => String (upper_char c) (upper s')
  end.

(** [s.startswith(p)] *)
Definition startswith (p s : string) : bool := String.prefix p s.

Fixpoint all_chars (f : ascii -> bool) (s : string) : bool :=
  match s with
  | EmptyString => true
  | String c s' => f c && all_chars f s'
  end.

Definition nonempty (s : string) : bool :=
  match s with EmptyString => false | _ => true end.

(** [s.isdigit()] and [s.isalpha()]: false on the empty string. *)
Definition isdigit (s : string) : bool := nonempty s && all_chars isdigit_char s.
Definition isalpha (s : string) : bool := nonempty s && all_chars isalpha_char s.

(** [len(s)] *)
Definition len (s : string) : nat := String.length s.

(** The text after the last occurrence of [c] (the whole of [s] when
    there is none): what the specification calls the suffix. *)
Fixpoint after_last (c : ascii) (s : string) : string :=
  match s with
  | EmptyString => EmptyString
  | String d s' =>
      if contains c s' then after_last c s'
      else if Ascii.eqb d c then s' else s
  end.

(** [needle in s] for a substring. *)
Fixpoint has_substring (needle s : string) : bool :=
  String.prefix needle s ||
  match s with
  | EmptyString => false
  | String _ s' => has_substring needle s'
  end.

End PyStr.

(** ** The symbol translator *)

Module Symbol.
Import PyStr.

(** The [return] statement that produced the result. *)
Inductive branch : Set :=
| KnownSuffix | UnknownSuffix
| RuleSH | RuleSZ | RuleBJ | RuleHK5 | RuleHKDigits | RuleUS
| FallbackSH | FallbackSZ.

Definition known_suffixes : list string := ["SH"; "SZ"; "HK"; "US"].

Definition in_list (s : string) (l : list string) : bool :=
  existsb (String.eqb s) l.

(** [_convert_to_longport_symbol] (lines 69-95), with the [return]
    statement taken. *)
Definition convert_traced (stock_code : string) : branch * string :=
  let stock_code := strip stock_code in
  if contains "."%char stock_code then
    let parts := split "."%char stock_code in
    let suffix := upper (last_part parts) in
    if in_list suffix known_suffixes
    then (KnownSuffix, upper stock_code)
    else (UnknownSuffix, stock_code)
  else if startswith "6" stock_code then
    (RuleSH, stock_code +:+ ".SH")
  else if startswith "00" stock_code || startswith "30" stock_code then
    (RuleSZ, stock_code +:+ ".SZ")
  else if startswith "8" stock_code || startswith "4" stock_code then
    (RuleBJ, stock_code +:+ ".BJ")
  else if startswith "0" stock_code && (len stock_code =? 5)%nat then
    (RuleHK5, stock_code +:+ ".HK")
  else if isdigit stock_code && (len stock_code <=? 5)%nat then
    (RuleHKDigits, stock_code +:+ ".HK")
  else if isalpha stock_code then
    (RuleUS, stock_code +:+ ".US")
  else if startswith "6" stock_code
    then (FallbackSH, stock_code +:+ ".SH")
    else (FallbackSZ, stock_code +:+ ".SZ").

Definition _convert_to_longport_symbol (stock_code : string) : string :=
  snd (convert_traced stock_code).

End Symbol.

(** ** Exceptions and outcomes *)

(** Instances of Python's [Exception], which is what [except Exception]
    catches: the module's own error kind, from [.base], and every other
    class, named by [cls]. [msg] is [str(e)]. Interpreter signals that
    are not instances of [Exception] ([KeyboardInterrupt], [SystemExit])
    are not values of this type. *)
Inductive exn : Type :=
| DataFetchError (msg : string)
| PyError (cls : string) (msg : string).

Definition exn_str (e : exn) : string :=
  match e with
  | DataFetchError msg => msg
  | PyError _ msg => msg
  end.

Definition is_DataFetchError (e : exn) : bool :=
  match e with DataFetchError _ => true | PyError _ _ => false end.

Inductive outcome (A : Type) : Type :=
| Return (a : A)
| Raise (e : exn).
Arguments Return {A} a.
Arguments Raise {A} e.

(** Code that reads and writes a state of type [S] and may raise. A raise
    keeps the state reached so far. *)
Definition SE (S A : Type) : Type := S -> outcome A * S.

#[global] Instance SE_ret {S} : MRet (SE S) :=
  fun A a s => (Return a, s).

#[global] Instance SE_bind {S} : MBind (SE S) :=
  fun A B f m s =>
    match m s with
    | (Return a, s') => f a s'
    | (Raise e, s') => (Raise e, s')
    end.

Definition raise {S A} (e : exn) : SE S A := fun s => (Raise e, s).

Definition lift {S A} (o : outcome A) : SE S A := fun s => (o, s).

(** [try: body except Exception as e: handler e] *)
Definition try_except {S A} (body : SE S A) (handler : exn -> SE S A) : SE S A :=
  fun s =>
    match body s with
    | (Return a, s') => (Return a, s')
    | (Raise e, s') => handler e s'
    end.

(** [for x in xs: body x] *)
Fixpoint for_each {S A} (xs : list A) (body : A -> SE S unit) : SE S unit :=
  match xs with
  | [] => mret tt
  | x :: xs' => body x ;; for_each xs' body
  end.

(** [[f(x) for x in xs]], left to right, stopping at the first raise. *)
Fixpoint map_outcome {A B} (f : A -> outcome B) (xs : list A) : outcome (list B) :=
  match xs with
  | [] => Return []
  | x :: xs' =>
      match f x with
      | Raise e => Raise e
      | Return y =>
          match map_outcome f xs' with
          | Raise e => Raise e
          | Return ys => Return (y :: ys)
          end
      end
  end.

(** ** Tables *)

Module Pandas.

(** A cell holds a Python float or a string (the [date] column). *)
Inductive cell : Set :=
| CFloat (f : float)
| CStr (s : string).

Abbreviation Series := (list cell).

(** [nrows] is the length of the index; [cols] are the columns in
    order. A frame may have rows and no column, or columns and no row. *)
Record DataFrame : Set := mkDataFrame {
  nrows : nat;
  cols : list (string * Series)
}.

(** [df.columns] *)
Definition columns (d : DataFrame) : list string := map fst (cols d).

Fixpoint no_duplicates (l : list string) : bool :=
  match l with
  | [] => true
  | x :: l' => negb (existsb (String.eqb x) l') && no_duplicates l'
  end.

(** Frames of the model: unique labels, every column as long as the
    index. *)
Definition wf_frame (d : DataFrame) : bool :=
  no_duplicates (columns d) &&
  forallb (fun c => (length (snd c) =? nrows d)%nat) (cols d).

(** [pd.DataFrame()] *)
Definition empty_frame : DataFrame := mkDataFrame 0 [].

(** [pd.DataFrame(columns=names)] *)
Definition frame_with_columns (names : list string) : DataFrame :=
  mkDataFrame 0 (map (fun c => (c, [])) names).

(** [df.empty]: some axis has length 0. *)
Definition empty (d : DataFrame) : bool :=
  (nrows d =? 0)%nat || (length (cols d) =? 0)%nat.

(** [name in df.columns] *)
Definition has_column (name : string) (d : DataFrame) : bool :=
  existsb (fun c => String.eqb (fst c) name) (cols d).

Fixpoint lookup_column (name : string) (cs : list (string * Series)) : option Series :=
  match cs with
  | [] => None
  | (n, v) :: cs' => if String.eqb n name then Some v else lookup_column name cs'
  end.

(** [df[name]]: a missing label raises [KeyError], whose text is the
    quoted label. *)
Definition getitem (name : string) (d : DataFrame) : outcome Series :=
  match lookup_column name (cols d) with
  | Some v => Return v
  | None => Raise (PyError "KeyError" ("'" +:+ name +:+ "'"))
  end.

Fixpoint assign_column (name : string) (v : Series) (cs : list (string * Series))
  : list (string * Series) :=
  match cs with
  | [] => [(name, v)]
  | (n, w) :: cs' =>
      if String.eqb n name then (n, v) :: cs'
      else (n, w) :: assign_column name v cs'
  end.

(** [df[name] = v] for a series on the index of [df]: an existing
    column is replaced where it stands, a new one goes last. *)
Definition setitem (name : string) (v : Series) (d : DataFrame) : DataFrame :=
  mkDataFrame (nrows d) (assign_column name v (cols d)).

(** [df[name] = x] for a scalar: one copy per row. *)
Definition setitem_scalar (name : string) (x : cell) (d : DataFrame) : DataFrame :=
  setitem name (replicate (nrows d) x) d.

(** [df[names]]: a new frame with these columns in this order. A
    missing label raises [KeyError]; its text is taken from [df[name]]. *)
Definition select (names : list string) (d : DataFrame) : outcome DataFrame :=
  match map_outcome (fun n => match getitem n d with
                              | Return v => Return (n, v)
                              | Raise e => Raise e
                              end) names with
  | Return cs => Return (mkDataFrame (nrows d) cs)
  | Raise e => Raise e
  end.

(** The numbers of a series of floats. The frames the theorems speak of
    have a [close] of floats; on a [close] that holds a string what
    pandas does depends on which rows have both operands, and the
    [TypeError] here stands for a failure of some kind, not for its
    text or its row. *)
Definition as_float (c : cell) : outcome float :=
  match c with
  | CFloat f => Return f
  | CStr _ =>
      Raise (PyError "TypeError"
               "unsupported operand type(s) for /: 'str' and 'float'")
  end.

(** [ffill]: each NaN takes the last number before it, if any. *)
Fixpoint ffill_from (prev : option float) (l : list float) : list float :=
  match l with
  | [] => []
  | x :: l' =>
      if PrimFloat.is_nan x
      then match prev with
           | Some p => p :: ffill_from prev l'
           | None => x :: ffill_from None l'
           end
      else x :: ffill_from (Some x) l'
  end.

Definition ffill (l : list float) : list float := ffill_from None l.

(** [data / data.shift(1) - 1]: the row before row 0 is NaN. *)
Definition ratio_to_previous (data : list float) : list float :=
  zip_with (fun x y => (x / y - 1)%float) data (PrimFloat.nan :: data).

(** [s.pct_change()]. [pad] says whether this pandas fills NaNs forward
    first (the default [fill_method='pad'] of pandas 1 and 2) or not
    (pandas 3). *)
Definition pct_change (pad : bool) (s : Series) : outcome (list float) :=
  match map_outcome as_float s with
  | Raise e => Raise e
  | Return data =>
      Return (ratio_to_previous (if pad then ffill data else data))
  end.

(** [s * k] on a series of floats. *)
Definition mul_scalar (s : list float) (k : float) : list float :=
  map (fun x => (x * k)%float) s.

Definition fillna_cell (v : float) (c : cell) : cell :=
  match c with
  | CFloat f => if PrimFloat.is_nan f then CFloat v else c
  | CStr _ => c
  end.

(** [s.fillna(v)] *)
Definition fillna (v : float) (s : Series) : Series := map (fillna_cell v) s.

(** The value of the column [name] of [d] at row [t]. *)
Definition at_ (name : string) (t : nat) (d : DataFrame) : option cell :=
  match lookup_column name (cols d) with
  | Some v => v !! t
  | None => None
  end.

End Pandas.

(** ** The libraries the fetcher calls *)

(** [datetime.date]; [str(d)] is its ISO form. *)
Record date : Set := mkDate { year : nat; month : nat; day : nat }.

Fixpoint zeros (n : nat) : string :=
  match n with
  | O => EmptyString
  | S n' => String "0" (zeros n')
  end.

Definition zero_padded (width n : nat) : string :=
  let s := NilZero.string_of_uint (Nat.to_uint n) in
  zeros (width - String.length s) +:+ s.

Definition date_str (d : date) : string :=
  zero_padded 4 (year d) +:+ "-" +:+ zero_padded 2 (month d) +:+ "-" +:+
  zero_padded 2 (day d).

(** [longport.openapi.Period] and [AdjustType]. *)
Variant Period : Set := Min_1 | Day | Week | Month | Year.
Variant AdjustType : Set := NoAdjust | ForwardAdjust.

(** The arguments of one [history_candlesticks_by_date] call. *)
Record request : Set := mkRequest {
  req_symbol : string;
  req_period : Period;
  req_adjust : AdjustType;
  req_start : date;
  req_end : date
}.

(** The numeric attributes of a candle that the fetcher reads. *)
Variant attr : Set := a_open | a_high | a_low | a_close | a_volume | a_turnover.

(** What is outside this file: the SDK's client and candles, [strptime],
    and the pandas version. Each call either returns or raises. *)
Class Libraries : Type := {
  QuoteContext : Type;
  Candle : Type;
  (** [ctx.history_candlesticks_by_date(symbol, period, adjust, start, end)] *)
  history_candlesticks_by_date : QuoteContext -> request -> outcome (list Candle);
  (** [datetime.strptime(s, "%Y-%m-%d").date()] *)
  strptime_date : string -> outcome date;
  (** [candle.time.strftime("%Y-%m-%d")] *)
  time_strftime : Candle -> outcome string;
  (** [float(candle.<attr>)] *)
  float_of : attr -> Candle -> outcome float;
  (** whether [pct_change] pads NaNs forward *)
  pct_change_pads : bool
}.

(** ** Logging and the network *)

Variant level : Set := INFO | WARNING | ERROR.

(** What a call leaves behind: the log records and the requests sent. *)
Record world : Set := mkWorld {
  log : list (level * string);
  sent : list request
}.

Definition logger (lv : level) (msg : string) : SE world unit :=
  fun w => (Return tt, mkWorld (log w ++ [(lv, msg)]) (sent w)).

(** ** The raw retriever *)

Section Fetcher.
Context `{Libraries}.
Import Pandas.

(** The fetcher object: only [self.ctx] is read after construction. *)
Record LongPortFetcher : Type := mkFetcher { ctx : option QuoteContext }.

(** A provider call is recorded in [sent] before it answers. *)
Definition call_history (c : QuoteContext) (r : request) : SE world (list Candle) :=
  fun w => (history_candlesticks_by_date c r, mkWorld (log w) (sent w ++ [r])).

(** One dictionary of the [data] list, keys in insertion order. *)
Record raw_row : Set := mkRow {
  r_date : string;
  r_open : float; r_high : float; r_low : float; r_close : float;
  r_volume : float; r_amount : float
}.

Definition row_of_candle (candle : Candle) : outcome raw_row :=
  match time_strftime candle with Raise e => Raise e | Return d =>
  match float_of a_open candle with Raise e => Raise e | Return o =>
  match float_of a_high candle with Raise e => Raise e | Return h =>
  match float_of a_low candle with Raise e => Raise e | Return l =>
  match float_of a_close candle with Raise e => Raise e | Return c =>
  match float_of a_volume candle with Raise e => Raise e | Return v =>
  match float_of a_turnover candle with Raise e => Raise e | Return a =>
    Return (mkRow d o h l c v a)
  end end end end end end end.

(** [pd.DataFrame(data)] for a non-empty list of such dictionaries. *)
Definition frame_of_rows (data : list raw_row) : DataFrame :=
  mkDataFrame (length data)
    [ ("date", map (fun r => CStr (r_date r)) data);
      ("open", map (fun r => CFloat (r_open r)) data);
      ("high", map (fun r => CFloat (r_high r)) data);
      ("low", map (fun r => CFloat (r_low r)) data);
      ("close", map (fun r => CFloat (r_close r)) data);
      ("volume", map (fun r => CFloat (r_volume r)) data);
      ("amount", map (fun r => CFloat (r_amount r)) data) ].

Definition not_initialized : string :=
  "LongPort context not initialized or credentials missing".

(** [_fetch_raw_data] (lines 97-142). [not self.ctx] holds when the
    handle is [None]. The symbol is computed before the [try]; the two
    dates, the provider call, the warning and the mapping of the candles
    are inside it. *)
Definition _fetch_raw_data (self : LongPortFetcher)
    (stock_code start_date end_date : string) : SE world DataFrame :=
  match ctx self with
  | None => raise (DataFetchError not_initialized)
  | Some c =>
      let symbol := Symbol._convert_to_longport_symbol stock_code in
      try_except
        (start ← lift (strptime_date start_date);
         end_ ← lift (strptime_date end_date);
         candlesticks ← call_history c (mkRequest symbol Day ForwardAdjust start end_);
         match candlesticks with
         | [] =>
             logger WARNING ("No data found for " +:+ symbol +:+ " from " +:+
                             date_str start +:+ " to " +:+ date_str end_);;
             mret empty_frame
         | _ =>
             data ← lift (map_outcome row_of_candle candlesticks);
             mret (frame_of_rows data)
         end)
        (fun e =>
           logger ERROR ("Error fetching data from LongPort for " +:+ symbol +:+
                         ": " +:+ exn_str e);;
           raise (DataFetchError ("LongPort fetch error: " +:+ exn_str e)))
  end.

End Fetcher.

(** ** The store of frames *)

(** A frame object is known by its address in the store. *)
Abbreviation loc := nat (only parsing).
Abbreviation store := (list Pandas.DataFrame) (only parsing).

Module Store.
Import Pandas.

(** Reading an address that holds no object cannot happen in Python; the
    model raises. *)
Definition deref (l : loc) : SE store DataFrame :=
  fun h =>
    match h !! l with
    | Some d => (Return d, h)
    | None => (Raise (PyError "ReferenceError" "no such object"), h)
    end.

(** A new object, at the next free address. *)
Definition alloc (d : DataFrame) : SE store loc :=
  fun h => (Return (length h), h ++ [d]).

(** An update of the object at [l], in place. *)
Definition modify (l : loc) (f : DataFrame -> DataFrame) : SE store unit :=
  fun h =>
    match h !! l with
    | Some d => (Return tt, <[l := f d]> h)
    | None => (Raise (PyError "ReferenceError" "no such object"), h)
    end.

Definition df_empty (l : loc) : SE store bool :=
  d ← deref l; mret (empty d).

Definition df_has_column (l : loc) (name : string) : SE store bool :=
  d ← deref l; mret (has_column name d).

Definition df_getitem (l : loc) (name : string) : SE store Series :=
  d ← deref l; lift (getitem name d).

Definition df_setitem (l : loc) (name : string) (v : Series) : SE store unit :=
  modify l (setitem name v).

Definition df_setitem_scalar (l : loc) (name : string) (x : cell) : SE store unit :=
  modify l (setitem_scalar name x).

Definition df_select (l : loc) (names : list string) : SE store loc :=
  d ← deref l; r ← lift (select names d); alloc r.

End Store.

(** ** The normalizer *)

(** Modelled from the spec: [STANDARD_COLUMNS] of [data_provider/base.py],
    which is not among the sources. The specification describes the
    standard row as the raw candle record (date, open, high, low, close,
    volume, turnover/amount) plus the derived percentage change. The
    normalizer below takes the list as a parameter; this value serves the
    examples. *)
Definition STANDARD_COLUMNS_base : list string :=
  ["date"; "open"; "high"; "low"; "close"; "volume"; "amount"; "pct_chg"].

Section Normalizer.
Context `{Libraries}.
Variable STANDARD_COLUMNS : list string.
Import Pandas Store.

(** [_normalize_data] (lines 144-158). [df] is the caller's frame: every
    [df[...] = ...] updates that object; [pd.DataFrame(columns=...)] and
    [df[STANDARD_COLUMNS]] make new ones. *)
Definition _normalize_data (df : loc) (stock_code : string) : SE store loc :=
  e ← df_empty df;
  if e : bool then alloc (frame_with_columns STANDARD_COLUMNS)
  else
    has_pct ← df_has_column df "pct_chg";
    (if negb has_pct then
       close ← df_getitem df "close";
       pct ← lift (pct_change pct_change_pads close);
       df_setitem df "pct_chg" (map CFloat (mul_scalar pct 100));;
       s ← df_getitem df "pct_chg";
       df_setitem df "pct_chg" (fillna 0 s)
     else mret tt);;
    for_each STANDARD_COLUMNS (fun col =>
      has ← df_has_column df col;
      if negb has then df_setitem_scalar df col (CFloat 0) else mret tt);;
    df_select df STANDARD_COLUMNS.

End Normalizer.


(** ** The classification rules as the specification lists them *)

Module SymbolSpec.
Import PyStr.

(** Each rule is a test on the trimmed code and the market suffix it
    appends; the order is the order of precedence. *)
Definition rules : list ((string -> bool) * string) :=
  [ (fun code => startswith "6" code, ".SH");
    (fun code => startswith "00" code || startswith "30" code, ".SZ");
    (fun code => startswith "8" code || startswith "4" code, ".BJ");
    (fun code => startswith "0" code && (len code =? 5)%nat, ".HK");
    (fun code => isdigit code && (len code <=? 5)%nat, ".HK");
    (fun code => isalpha code, ".US") ].

(** The suffix of the first rule that matches, if any. *)
Fixpoint first_match (rs : list ((string -> bool) * string)) (code : string)
  : option string :=
  match rs with
  | [] => None
  | (test, suffix) :: rs' =>
      if test code then Some suffix else first_match rs' code
  end.

End SymbolSpec.

(** ** Where an exception of the fetch pipeline comes from *)

Section Pipeline.
Context `{Libraries}.

(** [raised_in_pipeline c symbol start_date end_date e]: running the
    body of the [try] block with client [c] raises [e], in date parsing,
    in the provider call or in the mapping of the candles. *)
Inductive raised_in_pipeline (c : QuoteContext) (symbol start_date end_date : string)
  : exn -> Prop :=
| raised_parsing_start e :
    strptime_date start_date = Raise e ->
    raised_in_pipeline c symbol start_date end_date e
| raised_parsing_end start e :
    strptime_date start_date = Return start ->
    strptime_date end_date = Raise e ->
    raised_in_pipeline c symbol start_date end_date e
| raised_by_provider start end_ e :
    strptime_date start_date = Return start ->
    strptime_date end_date = Return end_ ->
    history_candlesticks_by_date c (mkRequest symbol Day ForwardAdjust start end_)
      = Raise e ->
    raised_in_pipeline c symbol start_date end_date e
| raised_mapping_rows start end_ candlesticks e :
    strptime_date start_date = Return start ->
    strptime_date end_date = Return end_ ->
    history_candlesticks_by_date c (mkRequest symbol Day ForwardAdjust start end_)
      = Return candlesticks ->
    map_outcome row_of_candle candlesticks = Raise e ->
    raised_in_pipeline c symbol start_date end_date e.

End Pipeline.

(** ** The normalizer as a function on frames *)

Module Steps.
Import Pandas.

(** The frame after the [pct_chg] block (lines 149-151). *)
Definition pct_chg_step (pad : bool) (d : DataFrame) : outcome DataFrame :=
  if has_column "pct_chg" d then Return d
  else
    match getitem "close" d with
    | Raise e => Raise e
    | Return close =>
        match pct_change pad close with
        | Raise e => Raise e
        | Return pct =>
            let d1 := setitem "pct_chg" (map CFloat (mul_scalar pct 100)) d in
            match getitem "pct_chg" d1 with
            | Raise e => Raise e
            | Return s => Return (setitem "pct_chg" (fillna 0 s) d1)
            end
        end
    end.

(** The frame after the loop over the standard columns (lines 154-156). *)
Fixpoint ensure_columns (names : list string) (d : DataFrame) : DataFrame :=
  match names with
  | [] => d
  | col :: names' =>
      ensure_columns names'
        (if has_column col d then d else setitem_scalar col (CFloat 0) d)
  end.

(** The percentage change of a close over the one before, as the
    specification writes it. *)
Definition pct_formula (close prev : float) : float :=
  ((close / prev - 1) * 100)%float.

(** A NaN result is stored as 0. *)
Definition nan_to_zero (x : float) : float :=
  if PrimFloat.is_nan x then 0%float else x.

Definition is_float (c : cell) : bool :=
  match c with CFloat _ => true | CStr _ => false end.

(** The numbers of a series, in order. *)
Definition floats_of (s : Series) : list float :=
  omap (fun c => match c with CFloat f => Some f | CStr _ => None end) s.

(** The frame has a [close] column and it holds floats only. *)
Definition numeric_close (d : DataFrame) : bool :=
  match lookup_column "close" (cols d) with
  | Some s => forallb is_float s
  | None => false
  end.

(** The frames on which no step of the normalizer raises: the empty
    ones, those that bring their own [pct_chg], and those whose [close]
    is numeric. *)
Definition normalizable (d : DataFrame) : bool :=
  empty d || has_column "pct_chg" d || numeric_close d.

(** The [pct_chg] column computed from the numbers of [close]. *)
Definition pct_series (pad : bool) (closes : list float) : Series :=
  fillna 0
    (map CFloat
       (mul_scalar (ratio_to_previous (if pad then ffill closes else closes)) 100)).

End Steps.

(** ** Construction of the fetcher *)

(** The values [get_config()] supplies: each is a string or [None]. *)
Record app_config : Set := mkAppConfig {
  longport_app_key : option string;
  longport_app_secret : option string;
  longport_access_token : option string;
  longport_quote_level : option string
}.

(** The truth value of such a setting: [None] and the empty string are
    false. *)
Definition truthy (v : option string) : bool :=
  match v with
  | Some s => PyStr.nonempty s
  | None => false
  end.

(** The import of the SDK at the top of the module and its two
    constructors, each free to return or raise. *)
Class Installation `{Libraries} : Type := {
  (** whether [from longport.openapi import ...] succeeded *)
  HAS_LONGPORT : bool;
  Config : Type;
  (** [Config(app_key=..., app_secret=..., access_token=...)] *)
  new_Config : option string -> option string -> option string -> outcome Config;
  (** [QuoteContext(lp_config)] *)
  new_QuoteContext : Config -> outcome QuoteContext
}.

Section Construction.
Context `{Installation}.

Definition sdk_missing : string :=
  "LongPort SDK not installed. Please run `pip install longport`".

Definition credentials_missing : string :=
  "LongPort API credentials not found in config (LONGPORT_APP_KEY/ACCESS_TOKEN)".

(** [_init_context] (lines 38-67): the fetcher after the call. The two
    early [return]s leave [self] as it is; the [except] clause sets
    [self.ctx = None]. *)
Definition _init_context (config : app_config) (self : LongPortFetcher)
  : SE world LongPortFetcher :=
  if negb HAS_LONGPORT then
    logger WARNING sdk_missing;;
    mret self
  else if negb (truthy (longport_app_key config)) ||
          negb (truthy (longport_access_token config)) then
    logger WARNING credentials_missing;;
    mret self
  else
    try_except
      (lp_config ← lift (new_Config (longport_app_key config)
                           (longport_app_secret config)
                           (longport_access_token config));
       (if truthy (longport_quote_level config) then mret tt else mret tt);;
       c ← lift (new_QuoteContext lp_config);
       logger INFO "LongPort QuoteContext initialized successfully";;
       mret (mkFetcher (Some c)))
      (fun e =>
         logger ERROR ("Failed to initialize LongPort context: " +:+ exn_str e);;
         mret (mkFetcher None)).

(** [__init__] (lines 33-36), given what [get_config()] returned. *)
Definition __init__ (config : app_config) : SE world LongPortFetcher :=
  _init_context config (mkFetcher None).

(** The handle the constructors would give for these credentials. *)
Definition constructed (config : app_config) : outcome QuoteContext :=
  match new_Config (longport_app_key config) (longport_app_secret config)
          (longport_access_token config) with
  | Raise e => Raise e
  | Return lp_config => new_QuoteContext lp_config
  end.

(** The library is there and the key and the token are set. *)
Definition ready_to_connect (config : app_config) : bool :=
  HAS_LONGPORT && truthy (longport_app_key config) &&
  truthy (longport_access_token config).

End Construction.

(** ** Reading a symbol back *)

Module Partition.
Import PyStr.

(** [s.rpartition(c)[0]]: the text before the last [c], empty when there
    is none. *)
Fixpoint before_last (c : ascii) (s : string) : string :=
  match s with
  | EmptyString => EmptyString
  | String d s' =>
      if contains c s' then String d (before_last c s') else EmptyString
  end.

(** The market suffixes the translator appends. *)
Definition market_suffixes : list string := ["SH"; "SZ"; "BJ"; "HK"; "US"].

(** No leading and no trailing whitespace. *)
Definition stripped (s : string) : bool := String.eqb (strip s) s.

End Partition.

(** ** Checks on series and frames *)

Module Checks.
Import Pandas.

(** No cell of the series is a NaN. *)
Definition no_nan (s : Series) : bool :=
  forallb (fun c => match c with
                    | CFloat f => negb (PrimFloat.is_nan f)
                    | CStr _ => true
                    end) s.

(** The seven columns of a fetched table, in order. *)
Definition raw_columns : list string :=
  ["date"; "open"; "high"; "low"; "close"; "volume"; "amount"].

End Checks.

(** What a fetch that fails inside the [try] leaves: the fetch error for
    the cause [e], one ERROR record, and the requests sent so far. *)
Definition failed_fetch (symbol : string) (e : exn) (w : world)
    (requests : list request) : outcome Pandas.DataFrame * world :=
  (Raise (DataFetchError ("LongPort fetch error: " +:+ exn_str e)),
   mkWorld
     (log w ++ [(ERROR, "Error fetching data from LongPort for " +:+ symbol +:+
                        ": " +:+ exn_str e)])
     requests).

(** ** The translator on Python strings *)

(** A Python [str] is a sequence of code points. What [str.strip],
    [str.isdigit], [str.isalpha] and [str.upper] do is read off the
    Unicode tables of the interpreter: [strip] removes the code points
    that are whitespace, [isdigit] and [isalpha] test every code point
    of a non-empty string, and [upper] replaces each code point by its
    full upper-case mapping, which may be longer than one code point.
    The tables are a parameter; [startswith], [in], [split] and [len]
    compare and count code points. *)
Module Unicode.

Class Tables : Type := {
  cp_isspace : N -> bool;
  cp_isdigit : N -> bool;
  cp_isalpha : N -> bool;
  cp_upper : N -> list N
}.

(** A literal of the source, all of them ASCII. *)
Definition lit (s : string) : list N :=
  map N_of_ascii (list_ascii_of_string s).

(** The code point of ".". *)
Definition dot : N := 46%N.

Fixpoint str_eqb (a b : list N) : bool :=
  match a, b with
  | [], [] => true
  | x :: a', y :: b' => N.eqb x y && str_eqb a' b'
  | _, _ => false
  end.

(** [c in s] *)
Fixpoint contains (c : N) (s : list N) : bool :=
  match s with
  | [] => false
  | d :: s' => if N.eqb d c then true else contains c s'
  end.

(** [s.split(c)] *)
Fixpoint split (c : N) (s : list N) : list (list N) :=
  match s with
  | [] => [[]]
  | d :: s' =>
      if N.eqb d c then [] :: split c s'
      else match split c s' with
           | p :: ps => (d :: p) :: ps
           | [] => [[d]]
           end
  end.

(** [parts[-1]] *)
Definition last_part (parts : list (list N)) : list N := List.last parts [].

(** [s.startswith(p)] *)
Fixpoint startswith (p s : list N) : bool :=
  match p, s with
  | [], _ => true
  | x :: p', y :: s' => N.eqb x y && startswith p' s'
  | _ :: _, [] => false
  end.

(** [len(s)] *)
Definition len (s : list N) : nat := length s.

(** The text after, and before, the last [c]. *)
Fixpoint after_last (c : N) (s : list N) : list N :=
  match s with
  | [] => []
  | d :: s' =>
      if contains c s' then after_last c s'
      else if N.eqb d c then s' else s
  end.

Fixpoint before_last (c : N) (s : list N) : list N :=
  match s with
  | [] => []
  | d :: s' => if contains c s' then d :: before_last c s' else []
  end.

Section Translator.
Context `{Tables}.

Fixpoint lstrip (s : list N) : list N :=
  match s with
  | [] => []
  | c :: s' => if cp_isspace c then lstrip s' else s
  end.

Fixpoint rstrip (s : list N) : list N :=
  match s with
  | [] => []
  | c :: s' =>
      match rstrip s' with
      | [] => if cp_isspace c then [] else [c]
      | r => c :: r
      end
  end.

(** [s.strip()] *)
Definition strip (s : list N) : list N := rstrip (lstrip s).

(** [s.upper()] *)
Fixpoint upper (s : list N) : list N :=
  match s with
  | [] => []
  | c :: s' => cp_upper c ++ upper s'
  end.

(** [s.isdigit()] and [s.isalpha()] *)
Definition isdigit (s : list N) : bool :=
  negb (len s =? 0)%nat && forallb cp_isdigit s.
Definition isalpha (s : list N) : bool :=
  negb (len s =? 0)%nat && forallb cp_isalpha s.

Definition known_suffixes : list (list N) :=
  [lit "SH"; lit "SZ"; lit "HK"; lit "US"].

Definition in_list (s : list N) (l : list (list N)) : bool :=
  existsb (str_eqb s) l.

(** [_convert_to_longport_symbol] (lines 69-95) on code points, with the
    [return] statement taken. *)
Definition convert_traced (stock_code : list N) : Symbol.branch * list N :=
  let stock_code := strip stock_code in
  if contains dot stock_code then
    let parts := split dot stock_code in
    let suffix := upper (last_part parts) in
    if in_list suffix known_suffixes
    then (Symbol.KnownSuffix, upper stock_code)
    else (Symbol.UnknownSuffix, stock_code)
  else if startswith (lit "6") stock_code then
    (Symbol.RuleSH, stock_code ++ lit ".SH")
  else if startswith (lit "00") stock_code || startswith (lit "30") stock_code then
    (Symbol.RuleSZ, stock_code ++ lit ".SZ")
  else if startswith (lit "8") stock_code || startswith (lit "4") stock_code then
    (Symbol.RuleBJ, stock_code ++ lit ".BJ")
  else if startswith (lit "0") stock_code && (len stock_code =? 5)%nat then
    (Symbol.RuleHK5, stock_code ++ lit ".HK")
  else if isdigit stock_code && (len stock_code <=? 5)%nat then
    (Symbol.RuleHKDigits, stock_code ++ lit ".HK")
  else if isalpha stock_code then
    (Symbol.RuleUS, stock_code ++ lit ".US")
  else if startswith (lit "6") stock_code
    then (Symbol.FallbackSH, stock_code ++ lit ".SH")
    else (Symbol.FallbackSZ, stock_code ++ lit ".SZ").

Definition _convert_to_longport_symbol (stock_code : list N) : list N :=
  snd (convert_traced stock_code).

(** The six rules as the specification lists them: a test on the
    trimmed code and the suffix to append, in order of precedence. *)
Definition rules : list ((list N -> bool) * list N) :=
  [ (fun code => startswith (lit "6") code, lit ".SH");
    (fun code => startswith (lit "00") code || startswith (lit "30") code, lit ".SZ");
    (fun code => startswith (lit "8") code || startswith (lit "4") code, lit ".BJ");
    (fun code => startswith (lit "0") code && (len code =? 5)%nat, lit ".HK");
    (fun code => isdigit code && (len code <=? 5)%nat, lit ".HK");
    (fun code => isalpha code, lit ".US") ].

Fixpoint first_match (rs : list ((list N -> bool) * list N)) (code : list N)
  : option (list N) :=
  match rs with
  | [] => None
  | (test, suffix) :: rs' =>
      if test code then Some suffix else first_match rs' code
  end.

End Translator.

(** The tables of Python below U+0080, and its whitespace everywhere;
    above U+007F this instance knows no digit and no letter and leaves
    [upper] alone. It runs the definitions on ASCII inputs. *)
Definition between (lo hi c : N) : bool := (N.leb lo c && N.leb c hi)%N.

Definition unicode_whitespace (c : N) : bool :=
  between 9 13 c || between 28 32 c || N.eqb c 133 || N.eqb c 160 ||
  N.eqb c 5760 || between 8192 8202 c || N.eqb c 8232 || N.eqb c 8233 ||
  N.eqb c 8239 || N.eqb c 8287 || N.eqb c 12288.

Definition ascii_tables : Tables := {|
  cp_isspace := unicode_whitespace;
  cp_isdigit := between 48 57;
  cp_isalpha := fun c => between 65 90 c || between 97 122 c;
  cp_upper := fun c => if between 97 122 c then [(c - 32)%N] else [c]
|}.

End Unicode.

(** ** Text that is ASCII *)

(** On strings of characters below 128 the functions of [PyStr] are
    those of Python. *)
Definition is_ascii (s : string) : bool :=
  PyStr.all_chars (fun c => (nat_of_ascii c <? 128)%nat) s.

(** ** A raise that is no instance of [Exception] *)

(** How a call ends when the interpreter can also raise what
    [except Exception] does not catch ([KeyboardInterrupt],
    [SystemExit], a panic of the SDK): an outcome as before, or such a
    raise, which propagates. *)
Inductive completion (A : Type) : Type :=
| Done (o : outcome A)
| Propagates (cls msg : string).
Arguments Done {A} o.
Arguments Propagates {A} cls msg.

Section Interrupts.
Context `{Libraries}.

(** [interrupted c r] is the raise that is no instance of [Exception],
    if any, in which the provider call [r] on [c] ends. *)
Variable interrupted : QuoteContext -> request -> option (string * string).

(** [_fetch_raw_data] when the provider call (lines 110-116) can end in
    such a raise: the [except Exception] clause of line 140 does not
    match it, so it leaves the function as it is, after the request was
    sent and before anything is logged. Otherwise the call runs as
    [_fetch_raw_data]. *)
Definition _fetch_raw_data_interruptible (self : LongPortFetcher)
    (stock_code start_date end_date : string) (w : world)
  : completion Pandas.DataFrame * world :=
  match ctx self, strptime_date start_date, strptime_date end_date with
  | Some c, Return start, Return end_ =>
      match interrupted c
              (mkRequest (Symbol._convert_to_longport_symbol stock_code)
                 Day ForwardAdjust start end_) with
      | Some (cls, msg) =>
          (Propagates cls msg,
           mkWorld (log w)
             (sent w ++ [mkRequest (Symbol._convert_to_longport_symbol stock_code)
                           Day ForwardAdjust start end_]))
      | None =>
          (Done (fst (_fetch_raw_data self stock_code start_date end_date w)),
           snd (_fetch_raw_data self stock_code start_date end_date w))
      end
  | _, _, _ =>
      (Done (fst (_fetch_raw_data self stock_code start_date end_date w)),
       snd (_fetch_raw_data self stock_code start_date end_date w))
  end.

End Interrupts.

(** ** A scripted provider, to run the definitions on concrete inputs *)

Module Scripted.
Import PyStr Pandas.

(** A candle of the script; a [close] of [None] makes [float()] raise. *)
Record candle : Set := mkCandle {
  c_time : date;
  c_open : float; c_high : float; c_low : float;
  c_close : option float;
  c_volume : float; c_turnover : float
}.

Definition digit_value (c : ascii) : option nat :=
  if isdigit_char c then Some (nat_of_ascii c - 48) else None.

Fixpoint number_of (acc : nat) (cs : list ascii) : option nat :=
  match cs with
  | [] => Some acc
  | c :: cs' =>
      match digit_value c with
      | Some v => number_of (10 * acc + v) cs'
      | None => None
      end
  end.

Definition bad_date (s : string) : exn :=
  PyError "ValueError"
    ("time data '" +:+ s +:+ "' does not match format '%Y-%m-%d'").

(** A stand-in for [strptime] in the runs below, not a model of it:
    it accepts the zero-padded form [YYYY-MM-DD] with a month in 1..12
    and a day in 1..31, and raises [ValueError] otherwise, where
    [strptime] also takes fields without padding and refuses a day
    past the end of its month. The theorems take [strptime_date] as a
    parameter of [Libraries]; only the runs use this one, on dates
    that both read alike. *)
Definition strict_ymd (s : string) : outcome date :=
  match list_ascii_of_string s with
  | [y1; y2; y3; y4; s1; m1; m2; s2; d1; d2] =>
      match number_of 0 [y1; y2; y3; y4], number_of 0 [m1; m2], number_of 0 [d1; d2] with
      | Some y, Some m, Some d =>
          if Ascii.eqb s1 "-" && Ascii.eqb s2 "-" &&
             (1 <=? y)%nat && (1 <=? m)%nat && (m <=? 12)%nat &&
             (1 <=? d)%nat && (d <=? 31)%nat
          then Return (mkDate y m d)
          else Raise (bad_date s)
      | _, _, _ => Raise (bad_date s)
      end
  | _ => Raise (bad_date s)
  end.

Definition float_of_candle (a : attr) (c : candle) : outcome float :=
  match a with
  | a_open => Return (c_open c)
  | a_high => Return (c_high c)
  | a_low => Return (c_low c)
  | a_close =>
      match c_close c with
      | Some x => Return x
      | None =>
          Raise (PyError "TypeError"
                   "float() argument must be a string or a real number, not 'NoneType'")
      end
  | a_volume => Return (c_volume c)
  | a_turnover => Return (c_turnover c)
  end.

(** The client is its own script: the answer to each request. *)
Definition libs (pad : bool) : Libraries := {|
  QuoteContext := request -> outcome (list candle);
  Candle := candle;
  history_candlesticks_by_date := fun c r => c r;
  strptime_date := strict_ymd;
  time_strftime := fun c => Return (date_str (c_time c));
  float_of := float_of_candle;
  pct_change_pads := pad
|}.

(** A fetcher whose client handle is [c]. *)
Definition fetcher (pad : bool) (c : option (request -> outcome (list candle)))
  : @LongPortFetcher (libs pad) :=
  @mkFetcher (libs pad) c.

Definition no_candles : request -> outcome (list candle) :=
  fun _ => Return [].

Definition provider_down : request -> outcome (list candle) :=
  fun _ => Raise (PyError "OpenApiException" "connection refused").

Definition candle_1 : candle :=
  mkCandle (mkDate 2024 1 2) 10 12 9 (Some 10%float) 1000 10000.
Definition candle_2 : candle :=
  mkCandle (mkDate 2024 1 3) 10 13 10 (Some 12.5%float) 2000 25000.
Definition candle_broken : candle :=
  mkCandle (mkDate 2024 1 4) 12 13 11 None 0 0.

Definition two_candles : request -> outcome (list candle) :=
  fun _ => Return [candle_1; candle_2].

Definition broken_candles : request -> outcome (list candle) :=
  fun _ => Return [candle_1; candle_broken].

Definition quiet : world := mkWorld [] [].

(** Frames for the examples. *)
Definition closes_10_12 : DataFrame :=
  mkDataFrame 2 [("close", [CFloat 10; CFloat 12.5])].

Definition closes_0_0 : DataFrame :=
  mkDataFrame 2 [("close", [CFloat 0; CFloat 0])].

Definition only_open : DataFrame :=
  mkDataFrame 1 [("open", [CFloat 1])].

Definition no_amount : DataFrame :=
  mkDataFrame 2
    [ ("date", [CStr "2024-01-02"; CStr "2024-01-03"]);
      ("close", [CFloat 10; CFloat 12.5]);
      ("pct_chg", [CFloat 0; CFloat 25]);
      ("note", [CStr "a"; CStr "b"]) ].

(** An installation whose client constructor answers [connect]; [Config]
    refuses a missing secret. *)
Definition install (pad has : bool) (connect : outcome (@QuoteContext (libs pad)))
  : @Installation (libs pad) := {|
  HAS_LONGPORT := has;
  Config := string;
  new_Config := fun key secret token =>
    match secret with
    | Some s => Return s
    | None => Raise (PyError "TypeError" "app_secret must be a string")
    end;
  new_QuoteContext := fun _ => connect
|}.

(** A table that lacks nothing: [pct_chg] and every standard column. *)
Definition complete_table : DataFrame :=
  mkDataFrame 1
    [ ("pct_chg", [CFloat 1.5]); ("amount", [CFloat 7]); ("volume", [CFloat 6]);
      ("close", [CFloat 5]); ("low", [CFloat 4]); ("high", [CFloat 3]);
      ("open", [CFloat 2]); ("date", [CStr "2024-01-02"]) ].

(** The rows of [two_candles]. *)
Definition two_rows : list raw_row :=
  [ mkRow "2024-01-02" 10 12 9 10 1000 10000;
    mkRow "2024-01-03" 10 13 10 12.5 2000 25000 ].

Definition full_config : app_config :=
  mkAppConfig (Some "key") (Some "secret") (Some "token") None.

Definition no_token_config : app_config :=
  mkAppConfig (Some "key") (Some "secret") (Some "") (Some "1").

Definition no_secret_config : app_config :=
  mkAppConfig (Some "key") None (Some "token") None.

End Scripted.

(** * Properties *)

(** ** Strings *)

Section StringFacts.
Import PyStr.

Lemma split_without_separator c s :
  contains c s = false -> split c s = [s].
Proof.
  induction s as [|d s IH]; simpl; [done|].
  destruct (Ascii.eqb d c); [done|].
  intros Hs. by rewrite (IH Hs).
Qed.

Lemma split_with_separator c s :
  contains c s = true -> exists p q ps, split c s = p :: q :: ps.
Proof.
  induction s as [|d s IH]; simpl; [done|].
  destruct (Ascii.eqb d c).
  - intros _. destruct (contains c s) eqn:Hs.
    + destruct (IH eq_refl) as (p & q & ps & ->). by exists EmptyString, p, (q :: ps).
    + rewrite (split_without_separator _ _ Hs). by exists EmptyString, s, [].
  - intros Hs. destruct (IH Hs) as (p & q & ps & ->). by exists (String d p), q, ps.
Qed.

Lemma after_last_without_separator c s :
  contains c s = false -> after_last c s = s.
Proof.
  destruct s as [|d s]; simpl; [done|].
  destruct (Ascii.eqb d c); [done|]. by intros ->.
Qed.

(** [s.split(c)[-1]] is the text after the last [c]. *)
Lemma last_part_split c s :
  last_part (split c s) = after_last c s.
Proof.
  unfold last_part. induction s as [|d s IH]; [done|].
  cbn [split after_last].
  destruct (contains c s) eqn:Hs.
  - destruct (split_with_separator _ _ Hs) as (p & q & ps & Hsplit).
    rewrite Hsplit in IH |- *. rewrite <- IH.
    by destruct (Ascii.eqb d c).
  - rewrite (split_without_separator _ _ Hs) in IH |- *.
    by destruct (Ascii.eqb d c).
Qed.

End StringFacts.

(** ** The symbol translator *)

Section SymbolFacts.
Import PyStr Symbol.

(** The guards of the rule list are the conditions of the [if] chain. *)
Lemma convert_without_separator s :
  contains "."%char (strip s) = false ->
  _convert_to_longport_symbol s =
    strip s +:+
      match SymbolSpec.first_match SymbolSpec.rules (strip s) with
      | Some suffix => suffix
      | None => ".SZ"
      end.
Proof.
  intros Hdot. unfold _convert_to_longport_symbol, convert_traced.
  rewrite Hdot. cbn [SymbolSpec.first_match SymbolSpec.rules].
  destruct (startswith "6" (strip s)) eqn:H6; [done|].
  destruct (startswith "00" (strip s) || startswith "30" (strip s)); [done|].
  destruct (startswith "8" (strip s) || startswith "4" (strip s)); [done|].
  destruct (startswith "0" (strip s) && (len (strip s) =? 5)%nat); [done|].
  destruct (isdigit (strip s) && (len (strip s) <=? 5)%nat); [done|].
  destruct (isalpha (strip s)); done.
Qed.

(** The same on the strings of [PyStr], which are Python's when the code
    is ASCII: the suffix of the first rule that matches is appended. *)
Lemma ascii_first_matching_rule_decides (stock_code suffix : string) :
  contains "."%char (strip stock_code) = false ->
  SymbolSpec.first_match SymbolSpec.rules (strip stock_code) = Some suffix ->
  _convert_to_longport_symbol stock_code = strip stock_code +:+ suffix.
Proof.
  intros Hdot Hrule. rewrite (convert_without_separator _ Hdot). by rewrite Hrule.
Qed.

Example ascii_first_matching_rule_600519 :
  _convert_to_longport_symbol "600519" = strip "600519" +:+ ".SH".
Proof.
  apply (ascii_first_matching_rule_decides "600519" ".SH"); reflexivity.
Qed.

(** The same on the strings of [PyStr]: a code with a market separator
    is returned uppercased when the uppercased text after its last "."
    is SH, SZ, HK or US, and as it is (trimmed) otherwise. *)
Lemma ascii_suffixed_code (stock_code : string) :
  contains "."%char (strip stock_code) = true ->
  _convert_to_longport_symbol stock_code =
    if in_list (upper (after_last "."%char (strip stock_code))) ["SH"; "SZ"; "HK"; "US"]
    then upper (strip stock_code)
    else strip stock_code.
Proof.
  intros Hdot. unfold _convert_to_longport_symbol, convert_traced.
  rewrite Hdot, last_part_split. unfold known_suffixes.
  by destruct (in_list _ _).
Qed.

Example ascii_suffixed_code_abc_xx :
  _convert_to_longport_symbol "ABC.xx" = "ABC.xx" /\
  _convert_to_longport_symbol " 700.hk " = "700.HK".
Proof.
  split.
  - exact (ascii_suffixed_code "ABC.xx" eq_refl).
  - exact (ascii_suffixed_code " 700.hk " eq_refl).
Qed.

(** C7: no input makes the translator return from the ".SH" arm of the
    fallback; when the fallback is reached the code does not start with
    "6" and the result is the trimmed code followed by ".SZ". *)
Theorem C7_fallback_never_SH (stock_code : string) :
  fst (convert_traced stock_code) <> FallbackSH /\
  (fst (convert_traced stock_code) = FallbackSZ ->
   startswith "6" (strip stock_code) = false /\
   _convert_to_longport_symbol stock_code = strip stock_code +:+ ".SZ").
Proof.
  unfold _convert_to_longport_symbol, convert_traced.
  destruct (contains "."%char (strip stock_code)).
  { destruct (in_list _ _); simpl; split; done. }
  destruct (startswith "6" (strip stock_code)) eqn:H6; [split; done|].
  destruct (startswith "00" (strip stock_code) || startswith "30" (strip stock_code));
    [split; done|].
  destruct (startswith "8" (strip stock_code) || startswith "4" (strip stock_code));
    [split; done|].
  destruct (startswith "0" (strip stock_code) && (len (strip stock_code) =? 5)%nat);
    [split; done|].
  destruct (isdigit (strip stock_code) && (len (strip stock_code) <=? 5)%nat);
    [split; done|].
  destruct (isalpha (strip stock_code)); [split; done|].
  simpl. split; done.
Qed.

(** The fallback itself is reached, by a six-digit code starting with 1. *)
Lemma C7_witness_123456 :
  convert_traced "123456" = (FallbackSZ, "123456.SZ") /\
  startswith "6" (strip "123456") = false /\
  _convert_to_longport_symbol "123456" = strip "123456" +:+ ".SZ".
Proof.
  split; [reflexivity|].
  exact (proj2 (C7_fallback_never_SH "123456") eq_refl).
Defined.

End SymbolFacts.

(** ** The raw retriever *)

Section FetcherFacts.
Context `{Libraries}.
Import Pandas.

(** What the [except] clause does with an exception [e]. *)
Lemma handler_wraps {A} (symbol : string) (e : exn) (w : world) :
  (logger ERROR ("Error fetching data from LongPort for " +:+ symbol +:+
                 ": " +:+ exn_str e);;
   raise (DataFetchError ("LongPort fetch error: " +:+ exn_str e))) w
  = (Raise (DataFetchError ("LongPort fetch error: " +:+ exn_str e)) : outcome A,
     mkWorld
       (log w ++ [(ERROR, "Error fetching data from LongPort for " +:+ symbol +:+
                          ": " +:+ exn_str e)])
       (sent w)).
Proof. reflexivity. Qed.

(** The [try] statement lets a value through and wraps every raise. *)
Lemma try_except_outcome {A} (body : SE world A) (symbol : string) (w : world) :
  fst (try_except body
         (fun e =>
            logger ERROR ("Error fetching data from LongPort for " +:+ symbol +:+
                          ": " +:+ exn_str e);;
            raise (DataFetchError ("LongPort fetch error: " +:+ exn_str e))) w)
  = match fst (body w) with
    | Return a => Return a
    | Raise e => Raise (DataFetchError ("LongPort fetch error: " +:+ exn_str e))
    end.
Proof.
  unfold try_except. destruct (body w) as [[a|e] w']; [done|].
  cbn beta. by rewrite handler_wraps.
Qed.

(** C1: with the client handle unset the retriever raises
    [DataFetchError] with the "not initialized" message, whatever the
    code and the dates are, and leaves the log and the list of requests
    sent as they were. *)
Theorem C1_unset_client_raises_fetch_error
    (self : LongPortFetcher) (stock_code start_date end_date : string) (w : world) :
  ctx self = None ->
  _fetch_raw_data self stock_code start_date end_date w
    = (Raise (DataFetchError not_initialized), w) /\
  PyStr.has_substring "not initialized" not_initialized = true.
Proof.
  intros Hctx. unfold _fetch_raw_data. rewrite Hctx. split; reflexivity.
Qed.

(** C3 (amended): among the instances of [Exception], whatever the
    retriever raises is a [DataFetchError]; and an instance of
    [Exception] raised by date parsing, by the provider call or by the
    mapping of a candle comes out as the [DataFetchError] whose message
    ends with the message of that exception. *)
Theorem C3_pipeline_exceptions_become_fetch_errors
    (self : LongPortFetcher) (stock_code start_date end_date : string) (w : world) :
  (forall e,
     fst (_fetch_raw_data self stock_code start_date end_date w) = Raise e ->
     is_DataFetchError e = true) /\
  (forall c e,
     ctx self = Some c ->
     raised_in_pipeline c (Symbol._convert_to_longport_symbol stock_code)
       start_date end_date e ->
     fst (_fetch_raw_data self stock_code start_date end_date w)
       = Raise (DataFetchError ("LongPort fetch error: " +:+ exn_str e))).
Proof.
  unfold _fetch_raw_data. split.
  - intros e. destruct (ctx self) as [c|].
    + rewrite try_except_outcome.
      destruct (fst _) as [a|e']; [done|]. by intros [= <-].
    + by intros [= <-].
  - intros c e -> Hraised. rewrite try_except_outcome.
    unfold mbind, SE_bind, lift, call_history.
    destruct Hraised as [e H1 | start e H1 H2 | start end_ e H1 H2 H3
                         | start end_ cs e H1 H2 H3 H4].
    + by rewrite H1.
    + by rewrite H1, H2.
    + by rewrite H1, H2, H3.
    + rewrite H1, H2, H3. destruct cs as [|candle cs]; [done|].
      by rewrite H4.
Qed.

(** C8 (amended): with the client set, the dates parsed and no candle
    returned, the retriever does not raise: it returns [pd.DataFrame()],
    having sent one request and logged one warning. That frame has no
    row and no column; it is a frame of the model and [empty] in the
    sense of pandas; the standard columns come only with the
    normalizer, which turns it into the table with the standard columns
    and no row. *)
Theorem C8_no_candles_returns_empty_table
    (self : LongPortFetcher) (c : QuoteContext)
    (stock_code start_date end_date : string) (start end_ : date) (w : world) :
  ctx self = Some c ->
  strptime_date start_date = Return start ->
  strptime_date end_date = Return end_ ->
  history_candlesticks_by_date c
    (mkRequest (Symbol._convert_to_longport_symbol stock_code) Day ForwardAdjust
       start end_) = Return [] ->
  _fetch_raw_data self stock_code start_date end_date w
    = (Return empty_frame,
       mkWorld
         (log w ++ [(WARNING,
                     "No data found for " +:+
                     Symbol._convert_to_longport_symbol stock_code +:+ " from " +:+
                     date_str start +:+ " to " +:+ date_str end_)])
         (sent w ++ [mkRequest (Symbol._convert_to_longport_symbol stock_code)
                       Day ForwardAdjust start end_])) /\
  nrows empty_frame = 0 /\
  columns empty_frame = [] /\
  empty empty_frame = true /\
  wf_frame empty_frame = true /\
  (forall (STANDARD_COLUMNS : list string) (h : store) (code : string),
     _normalize_data STANDARD_COLUMNS (length h) code (h ++ [empty_frame])
       = (Return (S (length h)),
          h ++ [empty_frame; frame_with_columns STANDARD_COLUMNS])).
Proof.
  intros Hctx Hs He Hcall. split; [|repeat split].
  - unfold _fetch_raw_data, try_except, mbind, SE_bind, lift, call_history.
    by rewrite Hctx, Hs, He, Hcall.
  - intros STD h code.
    unfold _normalize_data, Store.df_empty, Store.deref, Store.alloc, mbind, SE_bind, mret, SE_ret.
    rewrite list_lookup_middle by done. simpl.
    rewrite length_app, <- app_assoc. simpl. do 2 f_equal. lia.
Qed.

End FetcherFacts.

(** ** Frames *)

Section FrameFacts.
Import Pandas Steps.

Lemma has_column_lookup name d :
  has_column name d = bool_decide (is_Some (lookup_column name (cols d))).
Proof.
  unfold has_column. induction (cols d) as [|[n v] cs IH]; simpl; [done|].
  by destruct (String.eqb n name).
Qed.

Lemma has_column_true name d :
  has_column name d = true <-> is_Some (lookup_column name (cols d)).
Proof. rewrite has_column_lookup. apply bool_decide_eq_true. Qed.

Lemma has_column_false name d :
  has_column name d = false <-> lookup_column name (cols d) = None.
Proof.
  rewrite has_column_lookup, bool_decide_eq_false, <- eq_None_not_Some. done.
Qed.

Lemma lookup_assign_column name v cs c :
  lookup_column c (assign_column name v cs) =
    if String.eqb name c then Some v else lookup_column c cs.
Proof.
  induction cs as [|[n w] cs IH]; simpl.
  - by destruct (String.eqb name c).
  - destruct (String.eqb n name) eqn:Hn; simpl.
    + apply String.eqb_eq in Hn. subst n. by destruct (String.eqb name c).
    + rewrite IH. destruct (String.eqb n c) eqn:Hc; [|done].
      apply String.eqb_eq in Hc. subst c. by rewrite String.eqb_sym, Hn.
Qed.

Lemma assign_column_twice name v1 v2 cs :
  assign_column name v2 (assign_column name v1 cs) = assign_column name v2 cs.
Proof.
  induction cs as [|[n w] cs IH]; simpl.
  - by rewrite String.eqb_refl.
  - destruct (String.eqb n name) eqn:Hn; simpl; rewrite Hn; [done|]. by rewrite IH.
Qed.

Lemma setitem_twice name v1 v2 d :
  setitem name v2 (setitem name v1 d) = setitem name v2 d.
Proof. unfold setitem. simpl. by rewrite assign_column_twice. Qed.

Lemma getitem_setitem name v d :
  getitem name (setitem name v d) = Return v.
Proof.
  unfold getitem, setitem. simpl.
  by rewrite lookup_assign_column, String.eqb_refl.
Qed.

Lemma lookup_setitem name v d c :
  lookup_column c (cols (setitem name v d)) =
    if String.eqb name c then Some v else lookup_column c (cols d).
Proof. apply lookup_assign_column. Qed.

(** A new label goes after the existing ones. *)
Lemma columns_assign_new name v cs :
  lookup_column name cs = None ->
  map fst (assign_column name v cs) = map fst cs ++ [name].
Proof.
  induction cs as [|[n w] cs IH]; simpl; [done|].
  destruct (String.eqb n name); [done|]. intros Hn. simpl. f_equal. by apply IH.
Qed.

Lemma nrows_ensure_columns names d :
  nrows (ensure_columns names d) = nrows d.
Proof.
  revert d. induction names as [|col names IH]; intros d; simpl; [done|].
  rewrite IH. by destruct (has_column col d).
Qed.

(** The loop keeps every column that is there, and gives a missing
    standard column one 0.0 per row. *)
Lemma lookup_ensure_columns names d c :
  lookup_column c (cols (ensure_columns names d)) =
    match lookup_column c (cols d) with
    | Some v => Some v
    | None =>
        if bool_decide (c ∈ names) then Some (replicate (nrows d) (CFloat 0))
        else None
    end.
Proof.
  revert d. induction names as [|col names IH]; intros d; simpl.
  - by destruct (lookup_column c (cols d)).
  - rewrite IH. destruct (has_column col d) eqn:Hcol.
    + destruct (lookup_column c (cols d)) eqn:Hc; [done|].
      destruct (decide (c = col)) as [->|Hne].
      * apply has_column_true in Hcol as [? Hcol]. congruence.
      * rewrite (bool_decide_ext (c ∈ col :: names) (c ∈ names)); [done|].
        rewrite elem_of_cons. intuition congruence.
    + unfold setitem_scalar. rewrite lookup_setitem. simpl.
      destruct (String.eqb col c) eqn:Hcc.
      * apply String.eqb_eq in Hcc as ->.
        apply has_column_false in Hcol. rewrite Hcol.
        rewrite bool_decide_eq_true_2 by constructor. done.
      * apply String.eqb_neq in Hcc.
        destruct (lookup_column c (cols d)); [done|].
        rewrite (bool_decide_ext (c ∈ col :: names) (c ∈ names)); [done|].
        rewrite elem_of_cons. intuition congruence.
Qed.

Lemma has_column_ensure_columns names d c :
  c ∈ names -> has_column c (ensure_columns names d) = true.
Proof.
  intros Hc. apply has_column_true. rewrite lookup_ensure_columns.
  destruct (lookup_column c (cols d)); [done|].
  by rewrite bool_decide_eq_true_2.
Qed.

(** [df[names]] succeeds when every name is a column, and takes each
    column as it is. *)
Lemma select_present names d :
  (forall c, c ∈ names -> has_column c d = true) ->
  exists out,
    select names d = Return out /\
    nrows out = nrows d /\
    columns out = names /\
    (forall c, c ∈ names -> lookup_column c (cols out) = lookup_column c (cols d)).
Proof.
  unfold select, columns. intros Hall.
  assert (exists cs,
            map_outcome (fun n => match getitem n d with
                                  | Return v => Return (n, v)
                                  | Raise e => Raise e
                                  end) names = Return cs /\
            map fst cs = names /\
            (forall c, c ∈ names -> lookup_column c cs = lookup_column c (cols d)))
    as (cs & -> & Hfst & Hlook).
  { induction names as [|n names IH]; simpl.
    - exists []. split; [done|]. split; [done|]. intros c Hc. by apply elem_of_nil in Hc.
    - destruct IH as (cs & -> & Hfst & Hlook); [intros c Hc; apply Hall; by constructor|].
      assert (has_column n d = true) as Hn by (apply Hall; constructor).
      apply has_column_true in Hn as [v Hn]. unfold getitem. rewrite Hn.
      exists ((n, v) :: cs). split; [done|]. split; [simpl; by rewrite Hfst|].
      intros c Hc. simpl. destruct (String.eqb n c) eqn:Hnc.
      + apply String.eqb_eq in Hnc as <-. done.
      + apply String.eqb_neq in Hnc. apply Hlook.
        apply elem_of_cons in Hc as [->|Hc]; done. }
  eexists. split; [done|]. simpl. done.
Qed.

End FrameFacts.

(** ** Series of floats *)

Section SeriesFacts.
Import Pandas Steps.

(** Dividing by NaN gives NaN, and so does what is computed from it. *)
Lemma div_nan (x : float) : (x / PrimFloat.nan)%float = PrimFloat.nan.
Proof.
  apply Prim2SF_inj. rewrite div_spec.
  change (Prim2SF PrimFloat.nan) with S754_nan.
  unfold SF64div, SFdiv. by destruct (Prim2SF x).
Qed.

Lemma first_row_is_zero (x : float) :
  nan_to_zero ((x / PrimFloat.nan - 1) * 100)%float = 0%float.
Proof. rewrite div_nan. reflexivity. Qed.

Lemma length_ffill_from prev l : length (ffill_from prev l) = length l.
Proof.
  revert prev. induction l as [|x l IH]; intros prev; simpl; [done|].
  destruct (PrimFloat.is_nan x); [destruct prev|]; simpl; by rewrite IH.
Qed.

(** Padding leaves a number where it is. *)
Lemma lookup_ffill_from prev l t x :
  l !! t = Some x -> PrimFloat.is_nan x = false ->
  ffill_from prev l !! t = Some x.
Proof.
  revert prev t. induction l as [|y l IH]; intros prev t; [done|].
  destruct t as [|t]; simpl.
  - intros [= ->] ->. done.
  - intros Ht Hx. destruct (PrimFloat.is_nan y); [destruct prev|]; simpl; by apply IH.
Qed.

Lemma lookup_padded pad l t x :
  l !! t = Some x -> PrimFloat.is_nan x = false ->
  (if pad : bool then ffill l else l) !! t = Some x.
Proof. destruct pad; [apply lookup_ffill_from|done]. Qed.

Lemma length_padded pad l : length (if pad : bool then ffill l else l) = length l.
Proof. destruct pad; [apply length_ffill_from|done]. Qed.

Lemma length_ratio_to_previous data :
  length (ratio_to_previous data) = length data.
Proof. unfold ratio_to_previous. rewrite length_zip_with. simpl. lia. Qed.

Lemma length_pct_series pad closes : length (pct_series pad closes) = length closes.
Proof.
  unfold pct_series, fillna, mul_scalar.
  by rewrite !length_map, length_ratio_to_previous, length_padded.
Qed.

Lemma lookup_pct_series pad closes t x y :
  (if pad : bool then ffill closes else closes) !! t = Some x ->
  (PrimFloat.nan :: (if pad : bool then ffill closes else closes)) !! t = Some y ->
  pct_series pad closes !! t = Some (CFloat (nan_to_zero (pct_formula x y))).
Proof.
  intros Hx Hy. unfold pct_series, fillna, mul_scalar, ratio_to_previous.
  rewrite !list_lookup_fmap, lookup_zip_with, Hx. simpl. rewrite Hy. simpl.
  unfold nan_to_zero, pct_formula. by destruct (PrimFloat.is_nan _).
Qed.

(** The first row of the computed column is 0. *)
Lemma pct_series_first pad closes :
  closes <> [] -> pct_series pad closes !! 0 = Some (CFloat 0).
Proof.
  intros Hne.
  assert (exists x, (if pad then ffill closes else closes) !! 0 = Some x) as [x Hx].
  { apply lookup_lt_is_Some. rewrite length_padded. destruct closes; [done|simpl; lia]. }
  rewrite (lookup_pct_series pad closes 0 x PrimFloat.nan Hx eq_refl).
  unfold pct_formula. by rewrite first_row_is_zero.
Qed.

(** A later row holds the percentage change over the row before, with a
    NaN result stored as 0, when neither close is NaN. *)
Lemma pct_series_later pad closes t ct cp :
  closes !! S t = Some ct -> closes !! t = Some cp ->
  PrimFloat.is_nan ct = false -> PrimFloat.is_nan cp = false ->
  pct_series pad closes !! S t = Some (CFloat (nan_to_zero (pct_formula ct cp))).
Proof.
  intros Hct Hcp Hnt Hnp. apply lookup_pct_series.
  - by apply lookup_padded.
  - simpl. by apply lookup_padded.
Qed.

Lemma floats_of_numeric s :
  forallb is_float s = true -> map_outcome as_float s = Return (floats_of s).
Proof.
  induction s as [|[f|x] s IH]; simpl; [done| |done].
  intros Hs. rewrite (IH Hs). done.
Qed.

Lemma floats_of_cons f s : floats_of (CFloat f :: s) = f :: floats_of s.
Proof. reflexivity. Qed.

Lemma floats_of_CFloat l : floats_of (map CFloat l) = l.
Proof.
  induction l as [|x l IH]; [done|].
  change (map CFloat (x :: l)) with (CFloat x :: map CFloat l).
  by rewrite floats_of_cons, IH.
Qed.

Lemma numeric_CFloat l : forallb is_float (map CFloat l) = true.
Proof. induction l as [|x l IH]; simpl; done. Qed.

Lemma length_floats_of s :
  forallb is_float s = true -> length (floats_of s) = length s.
Proof.
  induction s as [|[f|x] s IH]; [done| |by simpl].
  intros Hs. rewrite floats_of_cons. simpl. f_equal. by apply IH.
Qed.

End SeriesFacts.

(** ** The normalizer *)

Section NormalizerFacts.
Context `{Libraries}.
Variable STANDARD_COLUMNS : list string.
Import Pandas Store Steps.

(** The [pct_chg] block on a numeric [close]: one new column, last. *)
Lemma pct_chg_step_numeric pad d s :
  has_column "pct_chg" d = false ->
  lookup_column "close" (cols d) = Some s ->
  forallb is_float s = true ->
  pct_chg_step pad d = Return (setitem "pct_chg" (pct_series pad (floats_of s)) d).
Proof.
  intros Hpct Hclose Hnum. unfold pct_chg_step, getitem at 1, pct_change.
  rewrite Hpct, Hclose, (floats_of_numeric _ Hnum), getitem_setitem, setitem_twice.
  done.
Qed.

(** The block leaves the frame alone when [pct_chg] is there, and raises
    before any assignment when [close] is missing or not numeric. *)
Lemma pct_chg_step_present pad d :
  has_column "pct_chg" d = true -> pct_chg_step pad d = Return d.
Proof. unfold pct_chg_step. by intros ->. Qed.

Lemma pct_chg_step_no_close pad d :
  has_column "pct_chg" d = false -> has_column "close" d = false ->
  pct_chg_step pad d = Raise (PyError "KeyError" "'close'").
Proof.
  intros Hpct Hclose%has_column_false. unfold pct_chg_step, getitem.
  by rewrite Hpct, Hclose.
Qed.

(** How each operation on a stored frame runs. *)
Lemma bind_run {S A B} (m : SE S A) (f : A -> SE S B) (s : S) :
  (m ≫= f) s =
    match m s with
    | (Return a, s') => f a s'
    | (Raise e, s') => (Raise e, s')
    end.
Proof. reflexivity. Qed.

Lemma df_empty_run (h : store) (df : loc) (d : DataFrame) :
  h !! df = Some d -> df_empty df h = (Return (empty d), h).
Proof. intros Hd. unfold df_empty, deref. by rewrite bind_run, Hd. Qed.

Lemma df_has_column_run (h : store) (df : loc) (d : DataFrame) name :
  h !! df = Some d -> df_has_column df name h = (Return (has_column name d), h).
Proof. intros Hd. unfold df_has_column, deref. by rewrite bind_run, Hd. Qed.

Lemma df_getitem_run (h : store) (df : loc) (d : DataFrame) name :
  h !! df = Some d -> df_getitem df name h = (getitem name d, h).
Proof. intros Hd. unfold df_getitem, deref. by rewrite bind_run, Hd. Qed.

Lemma df_setitem_run (h : store) (df : loc) (d : DataFrame) name v :
  h !! df = Some d -> df_setitem df name v h = (Return tt, <[df := setitem name v d]> h).
Proof. intros Hd. unfold df_setitem, modify. by rewrite Hd. Qed.

Lemma df_setitem_scalar_run (h : store) (df : loc) (d : DataFrame) name x :
  h !! df = Some d ->
  df_setitem_scalar df name x h = (Return tt, <[df := setitem_scalar name x d]> h).
Proof. intros Hd. unfold df_setitem_scalar, modify. by rewrite Hd. Qed.

Lemma df_select_run (h : store) (df : loc) (d : DataFrame) names :
  h !! df = Some d ->
  df_select df names h =
    match select names d with
    | Return out => (Return (length h), h ++ [out])
    | Raise e => (Raise e, h)
    end.
Proof.
  intros Hd. unfold df_select, deref. rewrite bind_run, Hd. cbn beta iota.
  rewrite bind_run. unfold lift, alloc. by destruct (select names d).
Qed.

(** The loop over the standard columns, run on the store. *)
Lemma for_each_ensures (names : list string) (h : store) (df : loc) (d : DataFrame) :
  h !! df = Some d ->
  for_each names (fun col =>
      has ← df_has_column df col;
      if negb has then df_setitem_scalar df col (CFloat 0) else mret tt) h
  = (Return tt, <[df := ensure_columns names d]> h).
Proof.
  revert h d. induction names as [|col names IH]; intros h d Hd; simpl.
  - by rewrite list_insert_id.
  - assert (df < length h) as Hlt by (by eapply lookup_lt_Some).
    rewrite bind_run, bind_run, (df_has_column_run _ _ _ _ Hd). cbn beta iota.
    destruct (has_column col d); cbn [negb].
    + by apply IH.
    + rewrite (df_setitem_scalar_run _ _ _ _ _ Hd).
      rewrite (IH _ (setitem_scalar col (CFloat 0) d)) by (by apply list_lookup_insert_eq).
      by rewrite list_insert_insert_eq.
Qed.

(** A run of [_normalize_data] in terms of the steps on the frame. *)
Lemma normalize_run (h : store) (df : loc) (d : DataFrame) (stock_code : string) :
  h !! df = Some d ->
  _normalize_data STANDARD_COLUMNS df stock_code h =
    if empty d then (Return (length h), h ++ [frame_with_columns STANDARD_COLUMNS])
    else
      match pct_chg_step pct_change_pads d with
      | Raise e => (Raise e, h)
      | Return d1 =>
          match select STANDARD_COLUMNS (ensure_columns STANDARD_COLUMNS d1) with
          | Return out =>
              (Return (length h),
               <[df := ensure_columns STANDARD_COLUMNS d1]> h ++ [out])
          | Raise e => (Raise e, <[df := ensure_columns STANDARD_COLUMNS d1]> h)
          end
      end.
Proof.
  intros Hd.
  assert (df < length h) as Hlt by (by eapply lookup_lt_Some).
  unfold _normalize_data.
  rewrite bind_run, (df_empty_run _ _ _ Hd). cbn beta iota.
  destruct (empty d); [done|].
  rewrite bind_run, (df_has_column_run _ _ _ _ Hd). cbn beta iota.
  rewrite bind_run.
  assert (forall (d1 : DataFrame),
            (for_each STANDARD_COLUMNS (fun col =>
                 has ← df_has_column df col;
                 if negb has then df_setitem_scalar df col (CFloat 0) else mret tt);;
             df_select df STANDARD_COLUMNS) (<[df := d1]> h)
            = match select STANDARD_COLUMNS (ensure_columns STANDARD_COLUMNS d1) with
              | Return out =>
                  (Return (length h),
                   <[df := ensure_columns STANDARD_COLUMNS d1]> h ++ [out])
              | Raise e => (Raise e, <[df := ensure_columns STANDARD_COLUMNS d1]> h)
              end) as Hloop.
  { intros d1. rewrite bind_run.
    rewrite (for_each_ensures _ _ df d1) by (by apply list_lookup_insert_eq).
    rewrite list_insert_insert_eq.
    rewrite (df_select_run _ _ (ensure_columns STANDARD_COLUMNS d1))
      by (by apply list_lookup_insert_eq).
    by rewrite length_insert. }
  unfold pct_chg_step. destruct (has_column "pct_chg" d); cbn [negb].
  - pose proof (Hloop d) as Hl. rewrite (list_insert_id h df d Hd) in Hl. exact Hl.
  - rewrite bind_run, (df_getitem_run _ _ _ _ Hd).
    destruct (getitem "close" d) as [close|e]; [|done].
    rewrite bind_run. unfold lift at 1.
    destruct (pct_change pct_change_pads close) as [pct|e]; [|done].
    rewrite bind_run, (df_setitem_run _ _ _ _ _ Hd).
    rewrite bind_run, (df_getitem_run _ _ (setitem "pct_chg" (map CFloat (mul_scalar pct 100)) d))
      by (by apply list_lookup_insert_eq).
    rewrite getitem_setitem.
    rewrite (df_setitem_run _ _ (setitem "pct_chg" (map CFloat (mul_scalar pct 100)) d))
      by (by apply list_lookup_insert_eq).
    rewrite list_insert_insert_eq, setitem_twice.
    exact (Hloop _).
Qed.

Lemma wf_frame_column_length d c v :
  wf_frame d = true -> lookup_column c (cols d) = Some v -> length v = nrows d.
Proof.
  unfold wf_frame. intros [_ Hlen]%andb_true_iff. revert Hlen.
  induction (cols d) as [|[n w] cs IH]; simpl; [done|].
  intros [Hw Hcs]%andb_true_iff. destruct (String.eqb n c).
  - intros [= <-]. by apply Nat.eqb_eq in Hw.
  - by apply IH.
Qed.

Lemma nonempty_has_rows d : empty d = false -> nrows d <> 0.
Proof.
  unfold empty. intros [Hn _]%orb_false_iff. by apply Nat.eqb_neq in Hn.
Qed.

(** On a frame that is normalizable and not empty, the [pct_chg] block
    either finds the column or computes it from the numeric [close]. *)
Lemma pct_chg_step_cases pad d :
  normalizable d = true -> empty d = false ->
  (has_column "pct_chg" d = true /\ pct_chg_step pad d = Return d) \/
  (has_column "pct_chg" d = false /\
   exists s,
     lookup_column "close" (cols d) = Some s /\ forallb is_float s = true /\
     pct_chg_step pad d = Return (setitem "pct_chg" (pct_series pad (floats_of s)) d)).
Proof.
  unfold normalizable. intros Hn He. rewrite He in Hn. simpl in Hn.
  destruct (has_column "pct_chg" d) eqn:Hpct.
  - left. split; [done|]. by apply pct_chg_step_present.
  - right. split; [done|]. simpl in Hn. unfold numeric_close in Hn.
    destruct (lookup_column "close" (cols d)) as [s|] eqn:Hclose; [|done].
    exists s. split; [done|]. split; [done|]. by apply pct_chg_step_numeric.
Qed.

(** The run of the normalizer on such a frame: the caller's frame
    becomes [ensure_columns STANDARD_COLUMNS d1], which has every
    standard column, and the result [out] is a new frame that selects
    them. *)
Lemma normalize_nonempty (h : store) (df : loc) (d : DataFrame) (stock_code : string) :
  h !! df = Some d -> empty d = false -> normalizable d = true ->
  exists d1 out,
    pct_chg_step pct_change_pads d = Return d1 /\
    select STANDARD_COLUMNS (ensure_columns STANDARD_COLUMNS d1) = Return out /\
    _normalize_data STANDARD_COLUMNS df stock_code h
      = (Return (length h), <[df := ensure_columns STANDARD_COLUMNS d1]> h ++ [out]) /\
    nrows out = nrows d1 /\
    columns out = STANDARD_COLUMNS /\
    (forall c, c ∈ STANDARD_COLUMNS ->
       lookup_column c (cols out)
         = lookup_column c (cols (ensure_columns STANDARD_COLUMNS d1))).
Proof.
  intros Hd He Hn. rewrite (normalize_run _ _ _ _ Hd), He.
  assert (exists d1, pct_chg_step pct_change_pads d = Return d1) as [d1 Hd1].
  { destruct (pct_chg_step_cases pct_change_pads d Hn He) as [[_ ->]|[_ (s & _ & _ & ->)]];
      by eexists. }
  destruct (select_present STANDARD_COLUMNS (ensure_columns STANDARD_COLUMNS d1))
    as (out & Hout & Hrows & Hcols & Hlook).
  { intros c Hc. by apply has_column_ensure_columns. }
  exists d1, out. rewrite Hd1, Hout, Hrows, nrows_ensure_columns. done.
Qed.

End NormalizerFacts.

Section NormalizerTheorems.
Context `{Libraries}.
Variable STANDARD_COLUMNS : list string.
Import Pandas Store Steps.

(** C2 (amended): on a frame of the model on which no step raises (it is
    empty, or has a [pct_chg] column, or has a numeric [close] column),
    the normalizer returns a new table whose columns are exactly
    STANDARD_COLUMNS, in that order. For an empty input it is the table
    with these columns and no row. Otherwise it has the rows of the
    input, every standard column of the input is kept as it is, and
    every standard column other than [pct_chg] that the input lacks
    holds 0.0 in every row. *)
Theorem C2_normalized_table_has_standard_columns
    (h : store) (df : loc) (d : DataFrame) (stock_code : string) :
  h !! df = Some d ->
  wf_frame d = true ->
  normalizable d = true ->
  exists (r : loc) (h' : store) (out : DataFrame),
    _normalize_data STANDARD_COLUMNS df stock_code h = (Return r, h') /\
    h' !! r = Some out /\
    columns out = STANDARD_COLUMNS /\
    if empty d
    then out = frame_with_columns STANDARD_COLUMNS /\ nrows out = 0
    else nrows out = nrows d /\
         forall col, col ∈ STANDARD_COLUMNS ->
           match lookup_column col (cols d) with
           | Some v => lookup_column col (cols out) = Some v
           | None =>
               col <> "pct_chg" ->
               lookup_column col (cols out) = Some (replicate (nrows d) (CFloat 0))
           end.
Proof.
  intros Hd _ Hn. destruct (empty d) eqn:He.
  - exists (length h), (h ++ [frame_with_columns STANDARD_COLUMNS]),
      (frame_with_columns STANDARD_COLUMNS).
    rewrite (normalize_run _ _ _ _ _ Hd), He.
    split; [done|]. split; [by apply list_lookup_middle|].
    split; [|done]. unfold columns, frame_with_columns. simpl.
    rewrite map_map. simpl. by rewrite map_id.
  - destruct (normalize_nonempty STANDARD_COLUMNS h df d stock_code Hd He Hn)
      as (d1 & out & Hd1 & Hout & Hrun & Hrows & Hcols & Hlook).
    exists (length h), (<[df := ensure_columns STANDARD_COLUMNS d1]> h ++ [out]), out.
    split; [done|].
    split; [apply list_lookup_middle; by rewrite length_insert|].
    split; [done|].
    assert (nrows d1 = nrows d /\
            forall c, c <> "pct_chg" ->
                      lookup_column c (cols d1) = lookup_column c (cols d))
      as [Hrows1 Hsame].
    { destruct (pct_chg_step_cases pct_change_pads d Hn He)
        as [[_ Hstep]|[_ (s & _ & _ & Hstep)]];
        rewrite Hstep in Hd1; injection Hd1 as <-; [done|].
      split; [done|]. intros c Hc. rewrite lookup_setitem.
      destruct (String.eqb "pct_chg" c) eqn:Hcc; [|done].
      by apply String.eqb_eq in Hcc. }
    split; [congruence|]. intros col Hcol.
    rewrite (Hlook col Hcol), lookup_ensure_columns.
    destruct (lookup_column col (cols d)) as [v|] eqn:Hv.
    + destruct (decide (col = "pct_chg")) as [->|Hne].
      * destruct (pct_chg_step_cases pct_change_pads d Hn He)
          as [[_ Hstep]|[Hno _]].
        -- rewrite Hstep in Hd1. injection Hd1 as <-. by rewrite Hv.
        -- apply has_column_false in Hno. congruence.
      * by rewrite (Hsame col Hne), Hv.
    + intros Hne. rewrite (Hsame col Hne), Hv, Hrows1.
      by rewrite bool_decide_eq_true_2.
Qed.

(** C4 (amended): on a frame of the model that is not empty, has no
    [pct_chg] column and has a [close] column of floats, the normalizer
    gives the caller's frame a [pct_chg] column, returned as well when
    [pct_chg] is a standard column, with one value per row: 0 in the
    first row, and in every later row whose close and previous close are
    not NaN the value (close[t] / close[t-1] - 1) * 100, stored as 0 when
    that value is NaN. *)
Theorem C4_pct_chg_from_close
    (h : store) (df : loc) (d : DataFrame) (stock_code : string) (closes : list float) :
  h !! df = Some d ->
  wf_frame d = true ->
  empty d = false ->
  has_column "pct_chg" d = false ->
  lookup_column "close" (cols d) = Some (map CFloat closes) ->
  exists (r : loc) (h' : store) (d' : DataFrame) (pcs : Series),
    _normalize_data STANDARD_COLUMNS df stock_code h = (Return r, h') /\
    h' !! df = Some d' /\
    lookup_column "pct_chg" (cols d') = Some pcs /\
    ("pct_chg" ∈ STANDARD_COLUMNS ->
     exists out, h' !! r = Some out /\ lookup_column "pct_chg" (cols out) = Some pcs) /\
    length pcs = nrows d /\
    pcs !! 0 = Some (CFloat 0) /\
    forall t ct cp,
      closes !! S t = Some ct -> closes !! t = Some cp ->
      PrimFloat.is_nan ct = false -> PrimFloat.is_nan cp = false ->
      pcs !! S t = Some (CFloat (nan_to_zero (pct_formula ct cp))).
Proof.
  intros Hd Hwf He Hpct Hclose.
  assert (normalizable d = true) as Hn.
  { unfold normalizable, numeric_close. by rewrite Hclose, numeric_CFloat, !orb_true_r. }
  destruct (normalize_nonempty STANDARD_COLUMNS h df d stock_code Hd He Hn)
    as (d1 & out & Hd1 & Hout & Hrun & Hrows & Hcols & Hlook).
  rewrite (pct_chg_step_numeric _ _ _ Hpct Hclose (numeric_CFloat closes)),
    floats_of_CFloat in Hd1.
  injection Hd1 as <-.
  assert (df < length h) as Hlt by (by eapply lookup_lt_Some).
  assert (length closes = nrows d) as Hlen.
  { rewrite <- (wf_frame_column_length _ _ _ Hwf Hclose). by rewrite length_map. }
  set (pcs := pct_series pct_change_pads closes) in *.
  set (d2 := ensure_columns STANDARD_COLUMNS (setitem "pct_chg" pcs d)) in *.
  assert (lookup_column "pct_chg" (cols d2) = Some pcs) as Hpcs.
  { unfold d2. by rewrite lookup_ensure_columns, lookup_setitem. }
  exists (length h), (<[df := d2]> h ++ [out]), d2, pcs.
  split; [done|].
  split; [rewrite lookup_app_l by (by rewrite length_insert);
          by apply list_lookup_insert_eq|].
  split; [done|].
  split.
  { intros Hstd. exists out.
    split; [apply list_lookup_middle; by rewrite length_insert|].
    by rewrite (Hlook _ Hstd). }
  split; [unfold pcs; by rewrite length_pct_series|].
  split.
  - apply pct_series_first. intros ->. simpl in Hlen.
    by apply (nonempty_has_rows d He).
  - intros t ct cp. apply pct_series_later.
Qed.

(** C9 (amended): on a frame of the model that is not empty and on which
    no step raises, the normalizer works on the caller's object: after
    the call that object has a [pct_chg] column and every standard
    column, its former columns are as they were, the result is another
    object, and no other object of the store has changed. So the caller's
    frame differs from what it was whenever it lacked [pct_chg] or some
    standard column. *)
Theorem C9_normalizer_assigns_in_place
    (h : store) (df : loc) (d : DataFrame) (stock_code : string) :
  h !! df = Some d ->
  wf_frame d = true ->
  empty d = false ->
  normalizable d = true ->
  exists (r : loc) (h' : store) (d' : DataFrame),
    _normalize_data STANDARD_COLUMNS df stock_code h = (Return r, h') /\
    r <> df /\
    h' !! df = Some d' /\
    (forall l, l <> df -> l < length h -> h' !! l = h !! l) /\
    has_column "pct_chg" d' = true /\
    (forall col, col ∈ STANDARD_COLUMNS -> has_column col d' = true) /\
    (forall col v,
       lookup_column col (cols d) = Some v -> lookup_column col (cols d') = Some v) /\
    ((has_column "pct_chg" d = false \/
      exists col, col ∈ STANDARD_COLUMNS /\ has_column col d = false) ->
     d' <> d).
Proof.
  intros Hd _ He Hn.
  destruct (normalize_nonempty STANDARD_COLUMNS h df d stock_code Hd He Hn)
    as (d1 & out & Hd1 & Hout & Hrun & Hrows & Hcols & Hlook).
  assert (df < length h) as Hlt by (by eapply lookup_lt_Some).
  set (d2 := ensure_columns STANDARD_COLUMNS d1) in *.
  assert (has_column "pct_chg" d1 = true /\
          forall col v, lookup_column col (cols d) = Some v ->
                        lookup_column col (cols d1) = Some v) as [Hpct1 Hkeep1].
  { destruct (pct_chg_step_cases pct_change_pads d Hn He)
      as [[Hyes Hstep]|[Hno (s & _ & _ & Hstep)]];
      rewrite Hstep in Hd1; injection Hd1 as <-; [done|].
    split.
    - apply has_column_true. rewrite lookup_setitem. by eexists.
    - intros col v Hv. rewrite lookup_setitem.
      destruct (String.eqb "pct_chg" col) eqn:Hcc; [|done].
      apply String.eqb_eq in Hcc as <-. apply has_column_false in Hno. congruence. }
  assert (forall col v, lookup_column col (cols d1) = Some v ->
                        lookup_column col (cols d2) = Some v) as Hkeep2.
  { intros col v Hv. unfold d2. by rewrite lookup_ensure_columns, Hv. }
  assert (has_column "pct_chg" d2 = true) as Hpct2.
  { apply has_column_true in Hpct1 as [v Hv]. apply has_column_true.
    exists v. by apply Hkeep2. }
  exists (length h), (<[df := d2]> h ++ [out]), d2.
  split; [done|]. split; [lia|].
  split; [rewrite lookup_app_l by (by rewrite length_insert);
          by apply list_lookup_insert_eq|].
  split.
  { intros l Hl Hlen. rewrite lookup_app_l by (by rewrite length_insert).
    by apply list_lookup_insert_ne. }
  split; [done|].
  split; [intros col Hcol; by apply has_column_ensure_columns|].
  split; [intros col v Hv; by apply Hkeep2, Hkeep1|].
  intros [Hno|(col & Hcol & Hno)] Heq.
  - rewrite Heq in Hpct2. congruence.
  - pose proof (has_column_ensure_columns STANDARD_COLUMNS d1 col Hcol) as Hyes.
    fold d2 in Hyes. rewrite Heq in Hyes. congruence.
Qed.

(** C10: the normalizer does not read [stock_code]: two calls on the
    same store and the same frame with different codes end in the same
    result and the same store. *)
Theorem C10_stock_code_is_ignored
    (h : store) (df : loc) (c1 c2 : string) :
  _normalize_data STANDARD_COLUMNS df c1 h = _normalize_data STANDARD_COLUMNS df c2 h.
Proof. reflexivity. Qed.

End NormalizerTheorems.

(** * The definitions on concrete inputs *)

Section Runs.
Import PyStr Symbol Pandas Steps Scripted.

Example convert_600519 : _convert_to_longport_symbol "600519" = "600519.SH".
Proof. reflexivity. Qed.

Example convert_000001 : _convert_to_longport_symbol " 000001 " = "000001.SZ".
Proof. reflexivity. Qed.

Example convert_300750 : _convert_to_longport_symbol "300750" = "300750.SZ".
Proof. reflexivity. Qed.

Example convert_830799 : _convert_to_longport_symbol "830799" = "830799.BJ".
Proof. reflexivity. Qed.

Example convert_00700 : _convert_to_longport_symbol "01810" = "01810.HK".
Proof. reflexivity. Qed.

Example convert_700 : convert_traced "700" = (RuleHKDigits, "700.HK").
Proof. reflexivity. Qed.

Example convert_AAPL : _convert_to_longport_symbol "AAPL" = "AAPL.US".
Proof. reflexivity. Qed.

Example convert_700_hk : _convert_to_longport_symbol "700.hk" = "700.HK".
Proof. reflexivity. Qed.

Example convert_empty : convert_traced "" = (FallbackSZ, ".SZ").
Proof. reflexivity. Qed.

(** A fetch that succeeds: two candles become two rows of seven columns. *)
Example fetch_two_candles :
  fst (_fetch_raw_data (fetcher false (Some two_candles))
         "600519" "2024-01-01" "2024-01-31" quiet)
  = Return (mkDataFrame 2
      [ ("date", [CStr "2024-01-02"; CStr "2024-01-03"]);
        ("open", [CFloat 10; CFloat 10]);
        ("high", [CFloat 12; CFloat 13]);
        ("low", [CFloat 9; CFloat 10]);
        ("close", [CFloat 10; CFloat 12.5]);
        ("volume", [CFloat 1000; CFloat 2000]);
        ("amount", [CFloat 10000; CFloat 25000]) ]).
Proof. vm_compute. reflexivity. Qed.

Lemma C1_witness_unset_client :
  _fetch_raw_data (fetcher false None) "600519" "not a date" "2024-01-31" quiet
    = (Raise (DataFetchError not_initialized), quiet) /\
  has_substring "not initialized" not_initialized = true.
Proof.
  exact (C1_unset_client_raises_fetch_error
           (fetcher false None) "600519" "not a date" "2024-01-31" quiet eq_refl).
Defined.

(** A candle without a close makes the mapping raise [TypeError]; the
    caller sees the fetch error with that message. *)
Lemma C3_witness_broken_candle :
  fst (_fetch_raw_data (fetcher false (Some broken_candles))
         "600519" "2024-01-01" "2024-01-31" quiet)
  = Raise (DataFetchError
             ("LongPort fetch error: " +:+
              exn_str (PyError "TypeError"
                "float() argument must be a string or a real number, not 'NoneType'"))).
Proof.
  apply (proj2 (C3_pipeline_exceptions_become_fetch_errors
                  (fetcher false (Some broken_candles))
                  "600519" "2024-01-01" "2024-01-31" quiet)
           broken_candles).
  - reflexivity.
  - eapply (@raised_mapping_rows (libs false)); reflexivity.
Defined.

Lemma C8_witness_no_candles :
  _fetch_raw_data (fetcher false (Some no_candles))
    "600519" "2024-01-01" "2024-01-31" quiet
    = (Return empty_frame,
       mkWorld
         (log quiet ++ [(WARNING,
                     "No data found for " +:+
                     Symbol._convert_to_longport_symbol "600519" +:+ " from " +:+
                     date_str (mkDate 2024 1 1) +:+ " to " +:+
                     date_str (mkDate 2024 1 31))])
         (sent quiet ++ [mkRequest (Symbol._convert_to_longport_symbol "600519")
                       Day ForwardAdjust (mkDate 2024 1 1) (mkDate 2024 1 31)])) /\
  nrows empty_frame = 0 /\
  columns empty_frame = [] /\
  empty empty_frame = true /\
  wf_frame empty_frame = true /\
  (forall (STANDARD_COLUMNS : list string) (h : store) (code : string),
     @_normalize_data (libs false) STANDARD_COLUMNS (length h) code (h ++ [empty_frame])
       = (Return (S (length h)),
          h ++ [empty_frame; frame_with_columns STANDARD_COLUMNS])).
Proof.
  exact (@C8_no_candles_returns_empty_table (libs false)
           (fetcher false (Some no_candles)) no_candles
           "600519" "2024-01-01" "2024-01-31" (mkDate 2024 1 1) (mkDate 2024 1 31) quiet
           eq_refl eq_refl eq_refl eq_refl).
Defined.

(** The claim C2 as it is stated fails on the table a fetch returns: it
    has no [pct_chg], and the column it gets holds 0 and 25, not 0.0 in
    every row. It also fails on a table with neither [pct_chg] nor
    [close]: the call raises [KeyError] and returns no table. *)
Lemma C2_counterexample_absent_pct_chg :
  (exists out : DataFrame,
     empty closes_10_12 = false /\
     has_column "pct_chg" closes_10_12 = false /\
     In "pct_chg" STANDARD_COLUMNS_base /\
     fst (@_normalize_data (libs false) STANDARD_COLUMNS_base 0 "600519" [closes_10_12])
       = Return 1 /\
     snd (@_normalize_data (libs false) STANDARD_COLUMNS_base 0 "600519" [closes_10_12])
       !! 1 = Some out /\
     lookup_column "pct_chg" (cols out) = Some [CFloat 0; CFloat 25] /\
     [CFloat 0; CFloat 25] <> replicate (nrows closes_10_12) (CFloat 0)) /\
  @_normalize_data (libs false) STANDARD_COLUMNS_base 0 "600519" [only_open]
    = (Raise (PyError "KeyError" "'close'"), [only_open]).
Proof.
  split; [|vm_compute; reflexivity].
  eexists.
  split; [reflexivity|]. split; [reflexivity|]. split; [simpl; tauto|].
  split; [vm_compute; reflexivity|]. split; [reflexivity|].
  split; [vm_compute; reflexivity|].
  intros Heq.
  apply (f_equal (fun l => match l with
                           | [_; CFloat x] => PrimFloat.eqb x 0
                           | _ => true
                           end)) in Heq.
  vm_compute in Heq. discriminate.
Qed.

Lemma C2_witness_no_amount :
  exists (r : loc) (h' : store) (out : DataFrame),
    @_normalize_data (libs false) STANDARD_COLUMNS_base 0 "600519" [no_amount]
      = (Return r, h') /\
    h' !! r = Some out /\
    columns out = STANDARD_COLUMNS_base /\
    if empty no_amount
    then out = frame_with_columns STANDARD_COLUMNS_base /\ nrows out = 0
    else nrows out = nrows no_amount /\
         forall col, col ∈ STANDARD_COLUMNS_base ->
           match lookup_column col (cols no_amount) with
           | Some v => lookup_column col (cols out) = Some v
           | None =>
               col <> "pct_chg" ->
               lookup_column col (cols out)
                 = Some (replicate (nrows no_amount) (CFloat 0))
           end.
Proof.
  exact (@C2_normalized_table_has_standard_columns (libs false) STANDARD_COLUMNS_base
           [no_amount] 0 no_amount "600519" eq_refl eq_refl eq_refl).
Defined.

(** The claim C4 as it is stated fails where the quotient is not a
    number: two closes of 0 give (0 / 0 - 1) * 100 = NaN by the formula,
    and the stored value is 0, with either pandas. *)
Lemma C4_counterexample_zero_closes :
  exists out : DataFrame,
    empty closes_0_0 = false /\
    has_column "pct_chg" closes_0_0 = false /\
    lookup_column "close" (cols closes_0_0) = Some [CFloat 0; CFloat 0] /\
    snd (@_normalize_data (libs false) STANDARD_COLUMNS_base 0 "600519" [closes_0_0])
      !! 1 = Some out /\
    snd (@_normalize_data (libs true) STANDARD_COLUMNS_base 0 "600519" [closes_0_0])
      !! 1 = Some out /\
    at_ "pct_chg" 1 out = Some (CFloat 0) /\
    PrimFloat.is_nan (pct_formula 0 0) = true /\
    CFloat 0 <> CFloat (pct_formula 0 0).
Proof.
  eexists.
  split; [reflexivity|]. split; [reflexivity|]. split; [reflexivity|].
  split; [reflexivity|]. split; [vm_compute; reflexivity|].
  split; [vm_compute; reflexivity|]. split; [vm_compute; reflexivity|].
  intros Heq.
  apply (f_equal (fun c => match c with
                           | CFloat x => PrimFloat.is_nan x
                           | CStr _ => false
                           end)) in Heq.
  vm_compute in Heq. discriminate.
Qed.

Lemma C4_witness_closes_10_12 :
  exists (r : loc) (h' : store) (d' : DataFrame) (pcs : Series),
    @_normalize_data (libs true) STANDARD_COLUMNS_base 0 "600519" [closes_10_12]
      = (Return r, h') /\
    h' !! 0 = Some d' /\
    lookup_column "pct_chg" (cols d') = Some pcs /\
    ("pct_chg" ∈ STANDARD_COLUMNS_base ->
     exists out, h' !! r = Some out /\ lookup_column "pct_chg" (cols out) = Some pcs) /\
    length pcs = nrows closes_10_12 /\
    pcs !! 0 = Some (CFloat 0) /\
    forall t ct cp,
      [10; 12.5]%float !! S t = Some ct -> [10; 12.5]%float !! t = Some cp ->
      PrimFloat.is_nan ct = false -> PrimFloat.is_nan cp = false ->
      pcs !! S t = Some (CFloat (nan_to_zero (pct_formula ct cp))).
Proof.
  exact (@C4_pct_chg_from_close (libs true) STANDARD_COLUMNS_base
           [closes_10_12] 0 closes_10_12 "600519" [10; 12.5]%float
           eq_refl eq_refl eq_refl eq_refl eq_refl).
Defined.

(** The value the formula gives for the closes 10 and 12.5. *)
Example pct_formula_10_12 : nan_to_zero (pct_formula 12.5 10) = 25%float.
Proof. vm_compute. reflexivity. Qed.

(** Next to a NaN close the two pandas differ, which is why the rows of
    C4 are those whose close and previous close are numbers. *)
Example pct_series_after_nan_close :
  pct_series true [1; PrimFloat.nan; 2]%float = [CFloat 0; CFloat 0; CFloat 100] /\
  pct_series false [1; PrimFloat.nan; 2]%float = [CFloat 0; CFloat 0; CFloat 0].
Proof. split; vm_compute; reflexivity. Qed.

(** A zero previous close with a non-zero close gives an infinity, which
    is kept. *)
Example pct_series_from_zero :
  pct_series false [0; 5]%float = [CFloat 0; CFloat PrimFloat.infinity].
Proof. vm_compute. reflexivity. Qed.

(** The claim C9 as it is stated fails on a table with neither [pct_chg]
    nor [close]: it lacks [pct_chg], the call raises [KeyError] before
    any assignment, and the caller's table is as it was. *)
Lemma C9_counterexample_no_close :
  empty only_open = false /\
  has_column "pct_chg" only_open = false /\
  @_normalize_data (libs false) STANDARD_COLUMNS_base 0 "600519" [only_open]
    = (Raise (PyError "KeyError" "'close'"), [only_open]).
Proof. repeat split; vm_compute; reflexivity. Qed.

Lemma C9_witness_closes_10_12 :
  exists (r : loc) (h' : store) (d' : DataFrame),
    @_normalize_data (libs false) STANDARD_COLUMNS_base 0 "600519" [closes_10_12]
      = (Return r, h') /\
    r <> 0 /\
    h' !! 0 = Some d' /\
    (forall l, l <> 0 -> l < length [closes_10_12] -> h' !! l = [closes_10_12] !! l) /\
    has_column "pct_chg" d' = true /\
    (forall col, col ∈ STANDARD_COLUMNS_base -> has_column col d' = true) /\
    (forall col v,
       lookup_column col (cols closes_10_12) = Some v ->
       lookup_column col (cols d') = Some v) /\
    ((has_column "pct_chg" closes_10_12 = false \/
      exists col, col ∈ STANDARD_COLUMNS_base /\ has_column col closes_10_12 = false) ->
     d' <> closes_10_12).
Proof.
  exact (@C9_normalizer_assigns_in_place (libs false) STANDARD_COLUMNS_base
           [closes_10_12] 0 closes_10_12 "600519" eq_refl eq_refl eq_refl eq_refl).
Defined.

(** The caller's frame after the call, and the frame returned. *)
Example normalize_closes_10_12 :
  @_normalize_data (libs false) STANDARD_COLUMNS_base 0 "600519" [closes_10_12]
  = (Return 1,
     [ mkDataFrame 2
         [ ("close", [CFloat 10; CFloat 12.5]);
           ("pct_chg", [CFloat 0; CFloat 25]);
           ("date", [CFloat 0; CFloat 0]); ("open", [CFloat 0; CFloat 0]);
           ("high", [CFloat 0; CFloat 0]); ("low", [CFloat 0; CFloat 0]);
           ("volume", [CFloat 0; CFloat 0]); ("amount", [CFloat 0; CFloat 0]) ];
       mkDataFrame 2
         [ ("date", [CFloat 0; CFloat 0]); ("open", [CFloat 0; CFloat 0]);
           ("high", [CFloat 0; CFloat 0]); ("low", [CFloat 0; CFloat 0]);
           ("close", [CFloat 10; CFloat 12.5]);
           ("volume", [CFloat 0; CFloat 0]); ("amount", [CFloat 0; CFloat 0]);
           ("pct_chg", [CFloat 0; CFloat 25]) ] ]).
Proof. vm_compute. reflexivity. Qed.

End Runs.

(** * Further properties of the fetcher *)

(** ** Construction *)

Section ConstructionFacts.
Context `{Installation}.

(** A run of [_init_context], case by case. *)
Lemma init_context_run (config : app_config) (self : LongPortFetcher) (w : world) :
  _init_context config self w =
    if negb HAS_LONGPORT then
      (Return self, mkWorld (log w ++ [(WARNING, sdk_missing)]) (sent w))
    else if negb (truthy (longport_app_key config)) ||
            negb (truthy (longport_access_token config)) then
      (Return self, mkWorld (log w ++ [(WARNING, credentials_missing)]) (sent w))
    else
      match constructed config with
      | Return c =>
          (Return (mkFetcher (Some c)),
           mkWorld (log w ++ [(INFO, "LongPort QuoteContext initialized successfully")])
             (sent w))
      | Raise e =>
          (Return (mkFetcher None),
           mkWorld (log w ++ [(ERROR, "Failed to initialize LongPort context: " +:+
                                      exn_str e)])
             (sent w))
      end.
Proof.
  unfold _init_context, constructed.
  destruct (negb HAS_LONGPORT); [done|].
  destruct (negb (truthy (longport_app_key config)) ||
            negb (truthy (longport_access_token config))); [done|].
  unfold try_except, mbind, SE_bind, lift, logger, mret, SE_ret.
  destruct (new_Config _ _ _) as [lp_config|e]; [|done].
  destruct (truthy (longport_quote_level config));
    by destruct (new_QuoteContext lp_config).
Qed.

(** X1: [__init__] returns whatever the configuration holds and whether
    the constructors of the SDK return or raise an instance of
    [Exception]; it sends no request and adds exactly one record to the
    log, which is an INFO record exactly when the client handle ends up
    set. *)
Theorem X1_init_never_raises (config : app_config) (w : world) :
  exists (self : LongPortFetcher) (lv : level) (msg : string),
    __init__ config w = (Return self, mkWorld (log w ++ [(lv, msg)]) (sent w)) /\
    (lv = INFO <-> is_Some (ctx self)).
Proof.
  unfold __init__. rewrite init_context_run.
  destruct (negb HAS_LONGPORT).
  { eexists _, _, _. split; [done|]. simpl. split; [done|]. by intros [? ?]. }
  destruct (negb (truthy (longport_app_key config)) ||
            negb (truthy (longport_access_token config))).
  { eexists _, _, _. split; [done|]. simpl. split; [done|]. by intros [? ?]. }
  destruct (constructed config) as [c|e].
  - eexists _, _, _. split; [done|]. simpl. split; [by eexists|done].
  - eexists _, _, _. split; [done|]. simpl. split; [done|]. by intros [? ?].
Qed.

(** X2: after [__init__] the handle is [c] exactly when the SDK was
    imported, the key and the token are non-empty, and [Config] and then
    [QuoteContext] returned [c]. The secret is handed to [Config]
    unchecked and the quote level plays no part. *)
Theorem X2_handle_set_iff_connected
    (config : app_config) (w w1 : world) (self : LongPortFetcher) (c : QuoteContext) :
  __init__ config w = (Return self, w1) ->
  (ctx self = Some c
   <-> ready_to_connect config = true /\ constructed config = Return c).
Proof.
  unfold __init__, ready_to_connect. rewrite init_context_run.
  destruct HAS_LONGPORT; simpl;
    [|intros [= <- _]; split; [done|by intros [? _]]].
  destruct (truthy (longport_app_key config)); simpl;
    [|intros [= <- _]; split; [done|by intros [? _]]].
  destruct (truthy (longport_access_token config)); simpl;
    [|intros [= <- _]; split; [done|by intros [? _]]].
  destruct (constructed config) as [c'|e]; intros [= <- _]; simpl.
  - split; [by intros [= ->]|by intros [_ [= ->]]].
  - split; [done|by intros [_ ?]].
Qed.

(** X3: when the SDK is missing, or the key or the token is empty, or a
    constructor raises, every fetch on the fetcher that [__init__] built
    raises the "not initialized" [DataFetchError], logs nothing more and
    sends nothing. *)
Theorem X3_failed_init_disables_fetch
    (config : app_config) (w : world) (stock_code start_date end_date : string) :
  ready_to_connect config = false \/ (exists e, constructed config = Raise e) ->
  exists self w1,
    __init__ config w = (Return self, w1) /\
    _fetch_raw_data self stock_code start_date end_date w1
      = (Raise (DataFetchError not_initialized), w1).
Proof.
  intros Hfail. unfold __init__, ready_to_connect in *. rewrite init_context_run.
  destruct HAS_LONGPORT; simpl in *; [|by eexists _, _].
  destruct (truthy (longport_app_key config)); simpl in *; [|by eexists _, _].
  destruct (truthy (longport_access_token config)); simpl in *; [|by eexists _, _].
  destruct Hfail as [?|[e He]]; [done|]. rewrite He. by eexists _, _.
Qed.

End ConstructionFacts.

(** ** Reading a translated symbol back *)

Section ReadbackFacts.
Import PyStr Symbol Partition.

Lemma contains_append c s t :
  contains c (s +:+ t) = contains c s || contains c t.
Proof.
  induction s as [|d s IH]; simpl; [done|]. by destruct (Ascii.eqb d c).
Qed.

Lemma after_last_append c u t :
  contains c t = false -> after_last c (u +:+ String c t) = t.
Proof.
  intros Ht. induction u as [|d u IH]; simpl.
  - by rewrite Ht, Ascii.eqb_refl.
  - rewrite contains_append. simpl. by rewrite Ascii.eqb_refl, orb_true_r.
Qed.

Lemma before_last_append c u t :
  contains c t = false -> before_last c (u +:+ String c t) = u.
Proof.
  intros Ht. induction u as [|d u IH]; simpl.
  - by rewrite Ht.
  - rewrite contains_append. simpl. by rewrite Ascii.eqb_refl, orb_true_r, IH.
Qed.

(** Uppercasing a character keeps what it is with respect to
    whitespace and to the separator, and is done once and for all. *)
Lemma isspace_upper_char c : isspace (upper_char c) = isspace c.
Proof. destruct c as [[] [] [] [] [] [] [] []]; reflexivity. Qed.

Lemma upper_char_is_dot c :
  Ascii.eqb (upper_char c) "."%char = Ascii.eqb c "."%char.
Proof. destruct c as [[] [] [] [] [] [] [] []]; reflexivity. Qed.

Lemma upper_char_twice c : upper_char (upper_char c) = upper_char c.
Proof. destruct c as [[] [] [] [] [] [] [] []]; reflexivity. Qed.

Lemma upper_twice s : upper (upper s) = upper s.
Proof. induction s as [|c s IH]; simpl; [done|]. by rewrite upper_char_twice, IH. Qed.

Lemma contains_dot_upper s : contains "."%char (upper s) = contains "."%char s.
Proof.
  induction s as [|c s IH]; simpl; [done|]. by rewrite upper_char_is_dot, IH.
Qed.

Lemma after_last_dot_upper s :
  after_last "."%char (upper s) = upper (after_last "."%char s).
Proof.
  induction s as [|c s IH]; simpl; [done|].
  rewrite contains_dot_upper, upper_char_is_dot, IH.
  destruct (contains "."%char s); [done|]. by destruct (Ascii.eqb c "."%char).
Qed.

Lemma lstrip_upper s : lstrip (upper s) = upper (lstrip s).
Proof.
  induction s as [|c s IH]; simpl; [done|].
  rewrite isspace_upper_char. by destruct (isspace c).
Qed.

Lemma rstrip_upper s : rstrip (upper s) = upper (rstrip s).
Proof.
  induction s as [|c s IH]; simpl; [done|].
  rewrite IH, isspace_upper_char.
  destruct (rstrip s); simpl; [by destruct (isspace c)|done].
Qed.

Lemma strip_upper s : strip (upper s) = upper (strip s).
Proof. unfold strip. by rewrite lstrip_upper, rstrip_upper. Qed.

(** What is left of a string after [lstrip] is empty or starts with a
    character that is not whitespace; [rstrip] keeps such a start. *)
Lemma lstrip_head s :
  lstrip s = EmptyString \/
  exists c r, lstrip s = String c r /\ isspace c = false.
Proof.
  induction s as [|c s IH]; simpl; [by left|].
  destruct (isspace c) eqn:Hc; [done|]. right. by exists c, s.
Qed.

Lemma rstrip_keeps_head c r :
  isspace c = false -> exists r', rstrip (String c r) = String c r'.
Proof.
  intros Hc. simpl. rewrite Hc. destruct (rstrip r); by eexists.
Qed.

Lemma strip_head s :
  strip s = EmptyString \/
  exists c r, strip s = String c r /\ isspace c = false.
Proof.
  unfold strip. destruct (lstrip_head s) as [->|(c & r & -> & Hc)]; [by left|].
  right. destruct (rstrip_keeps_head c r Hc) as [r' ->]. by exists c, r'.
Qed.

Lemma rstrip_twice s : rstrip (rstrip s) = rstrip s.
Proof.
  induction s as [|c s IH]; simpl; [done|].
  destruct (rstrip s) as [|d r] eqn:Hr.
  - destruct (isspace c) eqn:Hc; simpl; [done|]. by rewrite Hc.
  - change (rstrip (String c (String d r))) with
      (match rstrip (String d r) with
       | EmptyString => if isspace c then EmptyString else String c EmptyString
       | x => String c x
       end).
    by rewrite IH.
Qed.

Lemma lstrip_strip s : lstrip (strip s) = strip s.
Proof.
  destruct (strip_head s) as [->|(c & r & -> & Hc)]; simpl; [done|]. by rewrite Hc.
Qed.

(** [strip] has nothing left to do on its own result. *)
Lemma strip_twice s : strip (strip s) = strip s.
Proof.
  unfold strip at 1. rewrite lstrip_strip. unfold strip. apply rstrip_twice.
Qed.

Lemma rstrip_append u t :
  t <> EmptyString -> rstrip t = t -> rstrip (u +:+ t) = u +:+ t.
Proof.
  intros Hne Ht. induction u as [|c u IH]; [exact Ht|].
  change (String c u +:+ t) with (String c (u +:+ t)).
  cbn [rstrip]. rewrite IH. destruct (u +:+ t) eqn:Hut; [|done].
  destruct u; [by elim Hne|discriminate].
Qed.

(** A trimmed code followed by a suffix that starts and ends with other
    characters than whitespace is trimmed. *)
Lemma strip_code_suffix s d t :
  isspace d = false -> rstrip (String d t) = String d t ->
  strip (strip s +:+ String d t) = strip s +:+ String d t.
Proof.
  intros Hd Ht. unfold strip at 1.
  assert (lstrip (strip s +:+ String d t) = strip s +:+ String d t) as ->.
  { destruct (strip_head s) as [->|(c & r & -> & Hc)]; simpl; [by rewrite Hd|].
    by rewrite Hc. }
  by apply rstrip_append.
Qed.

(** The three shapes of a translation: a known suffix, an unknown one,
    or a suffix appended by a rule or by the fallback. *)
Lemma convert_cases s :
  (contains "."%char (strip s) = true /\
   in_list (upper (after_last "."%char (strip s))) known_suffixes = true /\
   convert_traced s = (KnownSuffix, upper (strip s))) \/
  (contains "."%char (strip s) = true /\
   in_list (upper (after_last "."%char (strip s))) known_suffixes = false /\
   convert_traced s = (UnknownSuffix, strip s)) \/
  (contains "."%char (strip s) = false /\
   exists b suffix,
     convert_traced s = (b, strip s +:+ String "." suffix) /\
     ((b = RuleBJ /\ suffix = "BJ") \/
      (b <> RuleBJ /\ b <> KnownSuffix /\ b <> UnknownSuffix /\
       In suffix known_suffixes))).
Proof.
  unfold convert_traced. rewrite last_part_split.
  destruct (contains "."%char (strip s)).
  { destruct (in_list _ _); [left|right; left]; done. }
  right; right. split; [done|].
  destruct (startswith "6" (strip s)).
  { exists RuleSH, "SH". split; [done|]. right. repeat split; [done..|simpl; tauto]. }
  destruct (startswith "00" (strip s) || startswith "30" (strip s)).
  { exists RuleSZ, "SZ". split; [done|]. right. repeat split; [done..|simpl; tauto]. }
  destruct (startswith "8" (strip s) || startswith "4" (strip s)).
  { exists RuleBJ, "BJ". split; [done|]. by left. }
  destruct (startswith "0" (strip s) && (len (strip s) =? 5)%nat).
  { exists RuleHK5, "HK". split; [done|]. right. repeat split; [done..|simpl; tauto]. }
  destruct (isdigit (strip s) && (len (strip s) <=? 5)%nat).
  { exists RuleHKDigits, "HK". split; [done|]. right. repeat split; [done..|simpl; tauto]. }
  destruct (isalpha (strip s)).
  { exists RuleUS, "US". split; [done|]. right. repeat split; [done..|simpl; tauto]. }
  exists FallbackSZ, "SZ". split; [done|]. right. repeat split; [done..|simpl; tauto].
Qed.

(** The suffixes in question have neither whitespace nor a separator. *)
Lemma suffix_is_clean suffix :
  suffix = "BJ" \/ In suffix known_suffixes ->
  contains "."%char suffix = false /\
  rstrip (String "." suffix) = String "." suffix /\
  in_list (upper suffix) known_suffixes = negb (String.eqb suffix "BJ") /\
  In suffix market_suffixes.
Proof.
  simpl. intros [->|[<-|[<-|[<-|[<-|[]]]]]]; repeat split; simpl; tauto.
Qed.

Lemma symbol_contains_separator (stock_code : string) :
  contains "."%char (_convert_to_longport_symbol stock_code) = true.
Proof.
  unfold _convert_to_longport_symbol.
  destruct (convert_cases stock_code)
    as [(Hc & _ & ->)|[(Hc & _ & ->)|(_ & b & suffix & -> & Hsuf)]]; simpl.
  - by rewrite contains_dot_upper.
  - done.
  - rewrite contains_append. simpl. by rewrite orb_true_r.
Qed.

Lemma symbol_is_trimmed (stock_code : string) :
  strip (_convert_to_longport_symbol stock_code)
    = _convert_to_longport_symbol stock_code.
Proof.
  unfold _convert_to_longport_symbol.
  destruct (convert_cases stock_code)
    as [(Hc & _ & ->)|[(Hc & _ & ->)|(_ & b & suffix & -> & Hsuf)]]; simpl.
  - by rewrite strip_upper, strip_twice.
  - by rewrite strip_twice.
  - assert (suffix = "BJ" \/ In suffix known_suffixes) as Hs by tauto.
    destruct (suffix_is_clean suffix Hs) as (_ & Hr & _ & _).
    by apply strip_code_suffix.
Qed.

(** X5: every translation of an ASCII input contains the separator and
    has no whitespace at either end. *)
Theorem X5_symbol_is_trimmed_and_suffixed (stock_code : string) :
  is_ascii stock_code = true ->
  contains "."%char (_convert_to_longport_symbol stock_code) = true /\
  strip (_convert_to_longport_symbol stock_code)
    = _convert_to_longport_symbol stock_code.
Proof.
  intros _. split; [apply symbol_contains_separator|apply symbol_is_trimmed].
Qed.

(** The translation of a trimmed string that contains the separator. *)
Lemma convert_suffixed r :
  strip r = r -> contains "."%char r = true ->
  _convert_to_longport_symbol r =
    if in_list (upper (after_last "."%char r)) known_suffixes then upper r else r.
Proof.
  intros Hr Hdot. unfold _convert_to_longport_symbol, convert_traced.
  rewrite Hr, Hdot, last_part_split. by destruct (in_list _ _).
Qed.

(** X6: translating a translation, for an ASCII input. A symbol that
    came out with SH, SZ, HK or US comes out uppercased the second time;
    one that came out with an unknown suffix, or with the BJ that the
    translator appends itself, comes out as it is, because BJ is not
    among the suffixes the translator recognises. *)
Theorem X6_translating_twice (stock_code : string) :
  is_ascii stock_code = true ->
  _convert_to_longport_symbol (_convert_to_longport_symbol stock_code) =
    match fst (convert_traced stock_code) with
    | UnknownSuffix | RuleBJ => _convert_to_longport_symbol stock_code
    | _ => upper (_convert_to_longport_symbol stock_code)
    end.
Proof.
  intros _.
  rewrite (convert_suffixed _ (symbol_is_trimmed stock_code)
             (symbol_contains_separator stock_code)).
  unfold _convert_to_longport_symbol.
  destruct (convert_cases stock_code)
    as [(_ & Hk & ->)|[(_ & Hk & ->)|(_ & b & suffix & -> & Hsuf)]]; cbn [fst snd].
  - by rewrite after_last_dot_upper, upper_twice, Hk.
  - by rewrite Hk.
  - assert (suffix = "BJ" \/ In suffix known_suffixes) as Hs by tauto.
    destruct (suffix_is_clean suffix Hs) as (Hclean & _ & Hknown & _).
    rewrite after_last_append, Hknown by done.
    destruct Hsuf as [[-> ->]|(Hb & Hb1 & Hb2 & Hin)]; [done|].
    assert (String.eqb suffix "BJ" = false) as ->.
    { apply String.eqb_neq. intros ->. simpl in Hin. intuition discriminate. }
    cbn [negb]. by destruct b.
Qed.

(** X7: for an ASCII input two passes of the translator reach a fixed
    point: a third pass returns what the second returned. *)
Theorem X7_third_translation_changes_nothing (stock_code : string) :
  is_ascii stock_code = true ->
  _convert_to_longport_symbol
    (_convert_to_longport_symbol (_convert_to_longport_symbol stock_code))
  = _convert_to_longport_symbol (_convert_to_longport_symbol stock_code).
Proof.
  intros _.
  pose proof (symbol_contains_separator stock_code) as Hdot.
  pose proof (symbol_is_trimmed stock_code) as Hstrip.
  set (r := _convert_to_longport_symbol stock_code) in *.
  rewrite (convert_suffixed r Hstrip Hdot).
  destruct (in_list (upper (after_last "."%char r)) known_suffixes) eqn:Hk.
  - rewrite convert_suffixed.
    + by rewrite after_last_dot_upper, !upper_twice, Hk.
    + by rewrite strip_upper, Hstrip.
    + by rewrite contains_dot_upper.
  - by rewrite (convert_suffixed r Hstrip Hdot), Hk.
Qed.

End ReadbackFacts.

(** ** More on the raw retriever *)

Section RetrieverFacts.
Context `{Libraries}.
Import Pandas Steps Checks.

Lemma length_map_outcome {A B} (f : A -> outcome B) xs ys :
  map_outcome f xs = Return ys -> length ys = length xs.
Proof.
  revert ys. induction xs as [|x xs IH]; intros ys; simpl.
  - by intros [= <-].
  - destruct (f x); [|done]. destruct (map_outcome f xs); [|done].
    intros [= <-]. simpl. f_equal. by apply IH.
Qed.

(** A run of [_fetch_raw_data] on a fetcher whose handle is set. *)
Lemma fetch_run (self : LongPortFetcher) (c : QuoteContext)
    (stock_code start_date end_date : string) (w : world) :
  ctx self = Some c ->
  _fetch_raw_data self stock_code start_date end_date w =
    match strptime_date start_date with
    | Raise e => failed_fetch (Symbol._convert_to_longport_symbol stock_code) e w (sent w)
    | Return start =>
        match strptime_date end_date with
        | Raise e =>
            failed_fetch (Symbol._convert_to_longport_symbol stock_code) e w (sent w)
        | Return end_ =>
            match history_candlesticks_by_date c
                    (mkRequest (Symbol._convert_to_longport_symbol stock_code)
                       Day ForwardAdjust start end_) with
            | Raise e =>
                failed_fetch (Symbol._convert_to_longport_symbol stock_code) e w
                  (sent w ++ [mkRequest (Symbol._convert_to_longport_symbol stock_code)
                                Day ForwardAdjust start end_])
            | Return [] =>
                (Return empty_frame,
                 mkWorld
                   (log w ++ [(WARNING,
                               "No data found for " +:+
                               Symbol._convert_to_longport_symbol stock_code +:+
                               " from " +:+ date_str start +:+ " to " +:+
                               date_str end_)])
                   (sent w ++ [mkRequest (Symbol._convert_to_longport_symbol stock_code)
                                 Day ForwardAdjust start end_]))
            | Return candlesticks =>
                match map_outcome row_of_candle candlesticks with
                | Raise e =>
                    failed_fetch (Symbol._convert_to_longport_symbol stock_code) e w
                      (sent w ++ [mkRequest
                                    (Symbol._convert_to_longport_symbol stock_code)
                                    Day ForwardAdjust start end_])
                | Return data =>
                    (Return (frame_of_rows data),
                     mkWorld (log w)
                       (sent w ++ [mkRequest
                                     (Symbol._convert_to_longport_symbol stock_code)
                                     Day ForwardAdjust start end_]))
                end
            end
        end
    end.
Proof.
  intros Hctx. unfold _fetch_raw_data, failed_fetch. rewrite Hctx.
  unfold try_except, mbind, SE_bind, lift, call_history, logger, raise, mret, SE_ret.
  destruct (strptime_date start_date) as [start|e]; [|done].
  destruct (strptime_date end_date) as [end_|e]; [|done].
  destruct (history_candlesticks_by_date c _) as [[|candle cs]|e]; [done| |done].
  by destruct (map_outcome row_of_candle (candle :: cs)).
Qed.

(** The frame built from the rows of a fetch. *)
Lemma frame_of_rows_shape (data : list raw_row) :
  nrows (frame_of_rows data) = length data /\
  columns (frame_of_rows data) = raw_columns /\
  wf_frame (frame_of_rows data) = true /\
  has_column "pct_chg" (frame_of_rows data) = false /\
  numeric_close (frame_of_rows data) = true.
Proof.
  split; [done|]. split; [done|]. split; [|split; [done|]].
  - unfold wf_frame. simpl. rewrite !length_map, Nat.eqb_refl. done.
  - unfold numeric_close. simpl. induction data as [|r data IH]; simpl; done.
Qed.

(** X8: when the handle is set, both dates parse, the provider returns
    at least one candle and every candle maps to a row, the retriever
    returns the table of these rows: as many rows as candles, the seven
    columns date, open, high, low, close, volume, amount in this order;
    it logs nothing and has sent this one request. *)
Theorem X8_fetch_returns_one_row_per_candle
    (self : LongPortFetcher) (c : QuoteContext)
    (stock_code start_date end_date : string) (start end_ : date)
    (candlesticks : list Candle) (data : list raw_row) (w : world) :
  ctx self = Some c ->
  strptime_date start_date = Return start ->
  strptime_date end_date = Return end_ ->
  history_candlesticks_by_date c
    (mkRequest (Symbol._convert_to_longport_symbol stock_code) Day ForwardAdjust
       start end_) = Return candlesticks ->
  candlesticks <> [] ->
  map_outcome row_of_candle candlesticks = Return data ->
  _fetch_raw_data self stock_code start_date end_date w
    = (Return (frame_of_rows data),
       mkWorld (log w)
         (sent w ++ [mkRequest (Symbol._convert_to_longport_symbol stock_code)
                       Day ForwardAdjust start end_])) /\
  nrows (frame_of_rows data) = length candlesticks /\
  columns (frame_of_rows data) = raw_columns /\
  empty (frame_of_rows data) = false.
Proof.
  intros Hctx Hs He Hcall Hne Hrows.
  rewrite (fetch_run _ _ _ _ _ _ Hctx), Hs, He, Hcall, Hrows.
  pose proof (length_map_outcome _ _ _ Hrows) as Hlen.
  destruct candlesticks as [|candle cs]; [done|].
  split; [done|]. split; [done|]. split; [done|].
  unfold empty. simpl. rewrite Hlen. done.
Qed.

(** X9: a call sends at most one request. It sends one exactly when the
    handle is set and both dates parse, and that request asks for daily,
    forward-adjusted candles of the translated symbol between the two
    dates: nothing is sent for a malformed date. *)
Theorem X9_requests_sent
    (self : LongPortFetcher) (stock_code start_date end_date : string) (w : world) :
  sent (snd (_fetch_raw_data self stock_code start_date end_date w)) =
    sent w ++
    match ctx self, strptime_date start_date, strptime_date end_date with
    | Some _, Return start, Return end_ =>
        [mkRequest (Symbol._convert_to_longport_symbol stock_code)
           Day ForwardAdjust start end_]
    | _, _, _ => []
    end.
Proof.
  destruct (ctx self) as [c|] eqn:Hctx.
  - rewrite (fetch_run _ _ _ _ _ _ Hctx). unfold failed_fetch.
    destruct (strptime_date start_date) as [start|e]; [|by rewrite app_nil_r].
    destruct (strptime_date end_date) as [end_|e]; [|by rewrite app_nil_r].
    destruct (history_candlesticks_by_date c _) as [[|candle cs]|e]; [done| |done].
    by destruct (map_outcome row_of_candle (candle :: cs)).
  - unfold _fetch_raw_data. rewrite Hctx. simpl. by rewrite app_nil_r.
Qed.

(** X10: the log of a fetch on a set handle. A failure adds one ERROR
    record that carries the same cause as the error raised; an empty
    result adds one WARNING record; a table with rows adds nothing. *)
Theorem X10_log_of_a_fetch
    (self : LongPortFetcher) (c : QuoteContext)
    (stock_code start_date end_date : string) (w : world) :
  ctx self = Some c ->
  match fst (_fetch_raw_data self stock_code start_date end_date w) with
  | Raise e =>
      exists cause,
        e = DataFetchError ("LongPort fetch error: " +:+ cause) /\
        log (snd (_fetch_raw_data self stock_code start_date end_date w)) =
          log w ++ [(ERROR, "Error fetching data from LongPort for " +:+
                            Symbol._convert_to_longport_symbol stock_code +:+
                            ": " +:+ cause)]
  | Return d =>
      if empty d
      then exists msg,
             log (snd (_fetch_raw_data self stock_code start_date end_date w)) =
               log w ++ [(WARNING, msg)]
      else log (snd (_fetch_raw_data self stock_code start_date end_date w)) = log w
  end.
Proof.
  intros Hctx. rewrite (fetch_run _ _ _ _ _ _ Hctx). unfold failed_fetch.
  destruct (strptime_date start_date) as [start|e]; [|by eexists].
  destruct (strptime_date end_date) as [end_|e]; [|by eexists].
  destruct (history_candlesticks_by_date c _) as [[|candle cs]|e];
    [by eexists| |by eexists].
  destruct (map_outcome row_of_candle (candle :: cs)) as [data|e] eqn:Hrows;
    [|by eexists].
  pose proof (length_map_outcome _ _ _ Hrows) as Hlen.
  cbn [fst snd]. unfold empty. simpl. rewrite Hlen. done.
Qed.

(** What the retriever returns is [pd.DataFrame()] or the frame of at
    least one row. *)
Lemma fetched_table_cases
    (self : LongPortFetcher) (stock_code start_date end_date : string)
    (w : world) (d : DataFrame) :
  fst (_fetch_raw_data self stock_code start_date end_date w) = Return d ->
  d = empty_frame \/ exists data, data <> [] /\ d = frame_of_rows data.
Proof.
  destruct (ctx self) as [c|] eqn:Hctx;
    [|unfold _fetch_raw_data; rewrite Hctx; done].
  rewrite (fetch_run _ _ _ _ _ _ Hctx). unfold failed_fetch.
  destruct (strptime_date start_date) as [start|e]; [|done].
  destruct (strptime_date end_date) as [end_|e]; [|done].
  destruct (history_candlesticks_by_date c _) as [[|candle cs]|e]; [| |done].
  { intros [= <-]. by left. }
  destruct (map_outcome row_of_candle (candle :: cs)) as [data|e] eqn:Hrows; [|done].
  intros [= <-]. right. exists data. split; [|done].
  pose proof (length_map_outcome _ _ _ Hrows) as Hlen. by destruct data.
Qed.

Lemma frame_of_rows_not_empty (data : list raw_row) :
  data <> [] -> empty (frame_of_rows data) = false.
Proof. by destruct data. Qed.

(** X11: every table the retriever returns is a frame of the model on
    which the normalizer does not raise: it is [pd.DataFrame()], or it
    has rows, the seven raw columns, a numeric [close] and no
    [pct_chg]. *)
Theorem X11_fetched_table_is_normalizable
    (self : LongPortFetcher) (stock_code start_date end_date : string)
    (w : world) (d : DataFrame) :
  fst (_fetch_raw_data self stock_code start_date end_date w) = Return d ->
  wf_frame d = true /\
  normalizable d = true /\
  has_column "pct_chg" d = false /\
  (d = empty_frame \/
   (empty d = false /\ columns d = raw_columns /\ numeric_close d = true)).
Proof.
  intros [->|(data & Hne & ->)]%fetched_table_cases.
  { repeat split; try done. by left. }
  destruct (frame_of_rows_shape data) as (Hn & Hcols & Hwf & Hpct & Hnum).
  pose proof (frame_of_rows_not_empty data Hne) as Hemp.
  split; [done|]. split; [|split; [done|right; done]].
  unfold normalizable. by rewrite Hnum, orb_true_r.
Qed.

End RetrieverFacts.

(** ** More on the normalizer *)

Section NormalizerMore.
Context `{Libraries}.
Variable STANDARD_COLUMNS : list string.
Import Pandas Store Steps Checks.

(** The numbers of a series: all of them, or a [TypeError]. *)
Lemma as_float_cases (s : Series) :
  (forallb is_float s = true /\ map_outcome as_float s = Return (floats_of s)) \/
  (forallb is_float s = false /\
   map_outcome as_float s =
     Raise (PyError "TypeError"
              "unsupported operand type(s) for /: 'str' and 'float'")).
Proof.
  induction s as [|[f|x] s IH]; [by left| |by right].
  destruct IH as [[Hs Hm]|[Hs Hm]]; [left|right]; simpl; rewrite Hs, Hm; done.
Qed.

(** The two ways the [pct_chg] block returns, and the two ways it
    raises. *)
Lemma pct_chg_step_returns pad d d1 :
  pct_chg_step pad d = Return d1 ->
  (has_column "pct_chg" d = true /\ d1 = d) \/
  (has_column "pct_chg" d = false /\
   exists s,
     lookup_column "close" (cols d) = Some s /\ forallb is_float s = true /\
     d1 = setitem "pct_chg" (pct_series pad (floats_of s)) d).
Proof.
  unfold pct_chg_step, getitem at 1, pct_change.
  destruct (has_column "pct_chg" d); [intros [= <-]; by left|].
  destruct (lookup_column "close" (cols d)) as [s|]; [|done].
  destruct (as_float_cases s) as [[Hs ->]|[Hs ->]]; [|done].
  rewrite getitem_setitem, setitem_twice. intros [= <-]. right.
  split; [done|]. by exists s.
Qed.


Lemma pct_chg_step_keeps pad d d1 :
  pct_chg_step pad d = Return d1 ->
  nrows d1 = nrows d /\
  has_column "pct_chg" d1 = true /\
  forall col v,
    lookup_column col (cols d) = Some v -> lookup_column col (cols d1) = Some v.
Proof.
  intros [[Hpct ->]|[Hpct (s & _ & _ & ->)]]%pct_chg_step_returns; [done|].
  split; [done|]. split.
  - apply has_column_true. rewrite lookup_setitem. by eexists.
  - intros col v Hv. rewrite lookup_setitem.
    destruct (String.eqb "pct_chg" col) eqn:Hcc; [|done].
    apply String.eqb_eq in Hcc as <-. apply has_column_false in Hpct. congruence.
Qed.

(** The selection after the loop cannot raise. *)
Lemma select_after_ensure d1 :
  exists out,
    select STANDARD_COLUMNS (ensure_columns STANDARD_COLUMNS d1) = Return out /\
    nrows out = nrows d1 /\
    columns out = STANDARD_COLUMNS /\
    (forall c, c ∈ STANDARD_COLUMNS ->
       lookup_column c (cols out)
         = lookup_column c (cols (ensure_columns STANDARD_COLUMNS d1))).
Proof.
  destruct (select_present STANDARD_COLUMNS (ensure_columns STANDARD_COLUMNS d1))
    as (out & Hout & Hrows & Hcols & Hlook).
  { intros c Hc. by apply has_column_ensure_columns. }
  exists out. by rewrite <- (nrows_ensure_columns STANDARD_COLUMNS d1).
Qed.


(** X13: normalizing what the retriever returned never raises. The result
    has exactly the standard columns and the rows of the fetched table,
    and every standard column that the fetched table has is returned
    with the fetched values. *)
Theorem X13_fetch_then_normalize
    (self : LongPortFetcher) (stock_code start_date end_date : string) (w : world)
    (d : DataFrame) (h : store) :
  fst (_fetch_raw_data self stock_code start_date end_date w) = Return d ->
  exists (h' : store) (out : DataFrame),
    _normalize_data STANDARD_COLUMNS (length h) stock_code (h ++ [d])
      = (Return (S (length h)), h') /\
    h' !! S (length h) = Some out /\
    columns out = STANDARD_COLUMNS /\
    nrows out = nrows d /\
    forall col v,
      col ∈ STANDARD_COLUMNS ->
      lookup_column col (cols d) = Some v -> lookup_column col (cols out) = Some v.
Proof.
  intros Hfetch.
  assert ((h ++ [d]) !! length h = Some d) as Hd by (by apply list_lookup_middle).
  assert (length (h ++ [d]) = S (length h)) as Hlen
    by (rewrite length_app; simpl; lia).
  rewrite (normalize_run _ _ _ _ _ Hd), Hlen.
  destruct (fetched_table_cases _ _ _ _ _ _ Hfetch) as [->|(data & Hne & ->)].
  { simpl. eexists _, _. split; [done|].
    split; [apply list_lookup_middle; by rewrite Hlen|].
    split; [|done]. unfold columns, frame_with_columns. simpl.
    rewrite map_map. simpl. by rewrite map_id. }
  rewrite (frame_of_rows_not_empty data Hne).
  destruct (frame_of_rows_shape data) as (_ & _ & _ & Hpct & Hnum).
  unfold numeric_close in Hnum.
  destruct (lookup_column "close" (cols (frame_of_rows data))) as [s|] eqn:Hclose;
    [|done].
  rewrite (pct_chg_step_numeric _ _ _ Hpct Hclose Hnum).
  set (d1 := setitem "pct_chg" _ _).
  destruct (select_after_ensure d1) as (out & -> & Hrows & Hcols & Hlook).
  exists (<[length h := ensure_columns STANDARD_COLUMNS d1]> (h ++ [frame_of_rows data])
            ++ [out]), out.
  split; [done|].
  split; [apply list_lookup_middle; by rewrite length_insert|].
  split; [done|]. split; [done|].
  intros col v Hcol Hv. rewrite (Hlook col Hcol), lookup_ensure_columns.
  unfold d1. rewrite lookup_setitem.
  destruct (String.eqb "pct_chg" col) eqn:Hcc; [|by rewrite Hv].
  apply String.eqb_eq in Hcc as <-. apply has_column_false in Hpct. congruence.
Qed.

(** *** Frames of the model stay frames of the model *)

Lemma existsb_eqb_elem (x : string) (l : list string) :
  existsb (String.eqb x) l = true <-> x ∈ l.
Proof.
  induction l as [|y l IH]; simpl.
  - split; [done|]. by intros ?%elem_of_nil.
  - rewrite orb_true_iff, IH, elem_of_cons, String.eqb_eq. done.
Qed.

Lemma no_duplicates_NoDup (l : list string) :
  no_duplicates l = true <-> NoDup l.
Proof.
  induction l as [|x l IH]; simpl; [split; [constructor|done]|].
  rewrite andb_true_iff, negb_true_iff, IH, NoDup_cons.
  rewrite <- existsb_eqb_elem. by destruct (existsb (String.eqb x) l); intuition.
Qed.

Lemma wf_frame_spec (d : DataFrame) :
  wf_frame d = true <->
  NoDup (columns d) /\ Forall (fun c => length (snd c) = nrows d) (cols d).
Proof.
  unfold wf_frame. rewrite andb_true_iff, no_duplicates_NoDup, forallb_forall.
  rewrite Forall_forall. split; intros [Hn Hl]; (split; [done|]); intros c Hc.
  - apply Nat.eqb_eq, Hl. by apply list_elem_of_In.
  - apply Nat.eqb_eq, Hl. by apply list_elem_of_In.
Qed.

Lemma assign_column_labels name v cs x :
  x ∈ map fst (assign_column name v cs) -> x = name \/ x ∈ map fst cs.
Proof.
  induction cs as [|[n w] cs IH]; simpl.
  - intros ?%list_elem_of_singleton. by left.
  - destruct (String.eqb n name) eqn:Hn; simpl.
    + intros Hx. by right.
    + rewrite !elem_of_cons. intros [->|Hx]; [right; by left|].
      destruct (IH Hx); [by left|right; by right].
Qed.

Lemma assign_column_NoDup name v cs :
  NoDup (map fst cs) -> NoDup (map fst (assign_column name v cs)).
Proof.
  induction cs as [|[n w] cs IH]; simpl.
  - intros _. apply NoDup_singleton.
  - intros [Hn Hcs]%NoDup_cons. destruct (String.eqb n name) eqn:Hnn; simpl.
    + by apply NoDup_cons.
    + apply NoDup_cons. split; [|by apply IH].
      intros [->|Hx]%assign_column_labels; [|done].
      by rewrite String.eqb_refl in Hnn.
Qed.

Lemma assign_column_Forall (P : string * Series -> Prop) name v cs :
  (forall n, P (n, v)) -> Forall P cs -> Forall P (assign_column name v cs).
Proof.
  intros Hv. induction cs as [|[n w] cs IH]; simpl.
  - intros _. by apply Forall_singleton.
  - intros [Hn Hcs]%Forall_cons. destruct (String.eqb n name).
    + by apply Forall_cons.
    + apply Forall_cons. split; [done|by apply IH].
Qed.

Lemma wf_setitem name v d :
  wf_frame d = true -> length v = nrows d -> wf_frame (setitem name v d) = true.
Proof.
  rewrite !wf_frame_spec. unfold columns, setitem. simpl. intros [Hn Hl] Hv.
  split; [by apply assign_column_NoDup|by apply assign_column_Forall].
Qed.

Lemma wf_ensure_columns names d :
  wf_frame d = true -> wf_frame (ensure_columns names d) = true.
Proof.
  revert d. induction names as [|col names IH]; intros d Hwf; simpl; [done|].
  apply IH. destruct (has_column col d); [done|].
  apply wf_setitem; [done|]. by rewrite length_replicate.
Qed.

Lemma wf_pct_chg_step pad d d1 :
  wf_frame d = true -> pct_chg_step pad d = Return d1 -> wf_frame d1 = true.
Proof.
  intros Hwf [[_ ->]|[_ (s & Hclose & Hnum & ->)]]%pct_chg_step_returns; [done|].
  apply wf_setitem; [done|].
  rewrite length_pct_series, (length_floats_of _ Hnum).
  by apply (wf_frame_column_length d "close").
Qed.

Lemma lookup_of_member (cs : list (string * Series)) n v :
  NoDup (map fst cs) -> (n, v) ∈ cs -> lookup_column n cs = Some v.
Proof.
  induction cs as [|[m w] cs IH]; simpl; [by intros _ ?%elem_of_nil|].
  intros [Hm Hcs]%NoDup_cons [[= -> ->]|Hin]%elem_of_cons.
  - by rewrite String.eqb_refl.
  - destruct (String.eqb m n) eqn:Hmn; [|by apply IH].
    apply String.eqb_eq in Hmn as ->. elim Hm.
    apply list_elem_of_fmap. by exists (n, v).
Qed.

Lemma select_returns_present names d out :
  select names d = Return out -> forall c, c ∈ names -> has_column c d = true.
Proof.
  unfold select. intros Hsel c Hc. revert Hsel.
  generalize (mkDataFrame (nrows d)). intros mk.
  revert out. induction names as [|n names IH]; intros out;
    [by apply elem_of_nil in Hc|].
  simpl. unfold getitem at 1.
  destruct (lookup_column n (cols d)) as [v|] eqn:Hn; [|done].
  destruct (map_outcome _ names) as [cs|e] eqn:Hrest; [|done]. intros _.
  apply elem_of_cons in Hc as [->|Hc].
  - apply has_column_true. by eexists.
  - by apply (IH Hc (mk cs)).
Qed.

Lemma wf_select names d out :
  NoDup names -> wf_frame d = true -> select names d = Return out ->
  wf_frame out = true.
Proof.
  intros Hnd Hwf Hsel.
  destruct (select_present names d (select_returns_present _ _ _ Hsel))
    as (out' & Hout & Hrows & Hcols & Hlook).
  rewrite Hsel in Hout. injection Hout as <-.
  apply wf_frame_spec. rewrite Hcols. split; [done|].
  apply Forall_forall. intros [n v] Hin. simpl.
  assert (lookup_column n (cols out) = Some v) as Hv.
  { apply lookup_of_member; [|done]. unfold columns in Hcols. by rewrite Hcols. }
  assert (n ∈ names) as Hn.
  { rewrite <- Hcols. apply list_elem_of_fmap. by exists (n, v). }
  rewrite (Hlook n Hn) in Hv. rewrite Hrows.
  by apply (wf_frame_column_length d n).
Qed.

(** X14: the normalizer keeps frames well formed. If the caller's frame
    has distinct labels and columns as long as its index, so has that
    frame after the call, with the columns added; and so has the table
    returned, when the standard columns are distinct. *)
Theorem X14_frames_stay_well_formed
    (h h' : store) (df r : loc) (d : DataFrame) (stock_code : string) :
  h !! df = Some d ->
  wf_frame d = true ->
  _normalize_data STANDARD_COLUMNS df stock_code h = (Return r, h') ->
  (exists d', h' !! df = Some d' /\ wf_frame d' = true) /\
  (NoDup STANDARD_COLUMNS -> exists out, h' !! r = Some out /\ wf_frame out = true).
Proof.
  intros Hd Hwf. rewrite (normalize_run _ _ _ _ _ Hd).
  assert (df < length h) as Hlt by (by eapply lookup_lt_Some).
  destruct (empty d).
  { intros [= <- <-]. split.
    - exists d. split; [by rewrite lookup_app_l|done].
    - intros Hnd. exists (frame_with_columns STANDARD_COLUMNS).
      split; [by apply list_lookup_middle|].
      apply wf_frame_spec. unfold columns, frame_with_columns. simpl.
      rewrite map_map. simpl. rewrite map_id. split; [done|].
      apply Forall_forall. by intros [n v] (c & [= -> ->] & _)%list_elem_of_fmap. }
  destruct (pct_chg_step pct_change_pads d) as [d1|e] eqn:Hstep; [|done].
  pose proof (wf_ensure_columns STANDARD_COLUMNS d1
                (wf_pct_chg_step _ _ _ Hwf Hstep)) as Hwf2.
  destruct (select STANDARD_COLUMNS (ensure_columns STANDARD_COLUMNS d1))
    as [out|e] eqn:Hsel; [|done].
  intros [= <- <-]. split.
  - eexists. split; [|exact Hwf2].
    rewrite lookup_app_l by (by rewrite length_insert).
    by apply list_lookup_insert_eq.
  - intros Hnd. exists out.
    split; [apply list_lookup_middle; by rewrite length_insert|].
    by apply (wf_select STANDARD_COLUMNS _ out Hnd Hwf2).
Qed.

(** *** Normalizing again *)

Lemma ensure_columns_noop names d :
  (forall c, c ∈ names -> has_column c d = true) -> ensure_columns names d = d.
Proof.
  induction names as [|col names IH]; intros Hall; simpl; [done|].
  rewrite (Hall col) by constructor. apply IH. intros c Hc. apply Hall.
  by constructor.
Qed.

Lemma map_outcome_ext_in {A B} (f g : A -> outcome B) xs :
  (forall x, x ∈ xs -> f x = g x) -> map_outcome f xs = map_outcome g xs.
Proof.
  induction xs as [|x xs IH]; intros Hfg; simpl; [done|].
  rewrite (Hfg x) by constructor. rewrite IH; [done|].
  intros y Hy. apply Hfg. by constructor.
Qed.

(** Selecting the same labels from a selection gives it back. *)
Lemma select_self names d out :
  select names d = Return out -> select names out = Return out.
Proof.
  intros Hsel.
  destruct (select_present names d (select_returns_present _ _ _ Hsel))
    as (out' & Hout & Hrows & Hcols & Hlook).
  rewrite Hsel in Hout. injection Hout as <-.
  revert Hsel. unfold select.
  rewrite (map_outcome_ext_in
             (fun n => match getitem n out with
                       | Return v => Return (n, v)
                       | Raise e => Raise e
                       end)
             (fun n => match getitem n d with
                       | Return v => Return (n, v)
                       | Raise e => Raise e
                       end)).
  - destruct (map_outcome _ names) as [cs|e]; [|done]. by intros [= <-].
  - intros n Hn. unfold getitem. by rewrite (Hlook n Hn).
Qed.

(** X15: normalizing a normalized table changes nothing, when [pct_chg]
    is a standard column: the second call returns a table equal to the
    first result and only adds that new table to the store. *)
Theorem X15_normalizing_twice
    (h h' : store) (df r : loc) (d : DataFrame) (code code' : string) :
  "pct_chg" ∈ STANDARD_COLUMNS ->
  h !! df = Some d ->
  _normalize_data STANDARD_COLUMNS df code h = (Return r, h') ->
  exists out,
    h' !! r = Some out /\
    _normalize_data STANDARD_COLUMNS r code' h' = (Return (length h'), h' ++ [out]).
Proof.
  intros Hstd Hd. rewrite (normalize_run _ _ _ _ _ Hd).
  assert (df < length h) as Hlt by (by eapply lookup_lt_Some).
  destruct (empty d) eqn:He.
  { intros [= <- <-]. exists (frame_with_columns STANDARD_COLUMNS).
    assert ((h ++ [frame_with_columns STANDARD_COLUMNS]) !! length h
            = Some (frame_with_columns STANDARD_COLUMNS)) as Hout
      by (by apply list_lookup_middle).
    split; [done|]. by rewrite (normalize_run _ _ _ _ _ Hout). }
  destruct (pct_chg_step pct_change_pads d) as [d1|e] eqn:Hstep; [|done].
  destruct (select STANDARD_COLUMNS (ensure_columns STANDARD_COLUMNS d1))
    as [out|e] eqn:Hsel; [|done].
  intros [= <- <-]. exists out.
  set (h' := <[df := ensure_columns STANDARD_COLUMNS d1]> h ++ [out]).
  assert (h' !! length h = Some out) as Hout
    by (apply list_lookup_middle; by rewrite length_insert).
  split; [done|]. rewrite (normalize_run _ _ _ _ _ Hout).
  destruct (select_present _ _ (select_returns_present _ _ _ Hsel))
    as (out' & Hout' & Hrows & Hcols & Hlook).
  rewrite Hsel in Hout'. injection Hout' as <-.
  assert (forall c, c ∈ STANDARD_COLUMNS -> has_column c out = true) as Hall.
  { intros c Hc. apply has_column_true. rewrite (Hlook c Hc).
    apply has_column_true. by apply has_column_ensure_columns. }
  assert (empty out = false) as ->.
  { unfold empty. rewrite Hrows, nrows_ensure_columns.
    destruct (pct_chg_step_keeps _ _ _ Hstep) as (-> & _).
    apply orb_false_iff. split; [by apply orb_false_iff in He as [? _]|].
    unfold columns in Hcols. destruct (cols out); [|done].
    simpl in Hcols. rewrite <- Hcols in Hstd. by apply elem_of_nil in Hstd. }
  unfold pct_chg_step. rewrite (Hall "pct_chg" Hstd).
  rewrite (ensure_columns_noop _ _ Hall), (select_self _ _ _ Hsel).
  by rewrite list_insert_id.
Qed.

(** X16: when every standard column and [pct_chg] are already there, the
    call assigns nothing: the store afterwards is the store before with
    one more object, the selection of the standard columns. *)
Theorem X16_complete_table_is_left_alone
    (h : store) (df : loc) (d : DataFrame) (stock_code : string) :
  h !! df = Some d ->
  empty d = false ->
  has_column "pct_chg" d = true ->
  (forall c, c ∈ STANDARD_COLUMNS -> has_column c d = true) ->
  exists out,
    select STANDARD_COLUMNS d = Return out /\
    _normalize_data STANDARD_COLUMNS df stock_code h
      = (Return (length h), h ++ [out]).
Proof.
  intros Hd He Hpct Hall. rewrite (normalize_run _ _ _ _ _ Hd), He.
  rewrite (pct_chg_step_present _ _ Hpct), (ensure_columns_noop _ _ Hall).
  destruct (select_present _ _ Hall) as (out & -> & _).
  exists out. by rewrite list_insert_id.
Qed.

(** *** No NaN in the computed column *)

Lemma no_nan_fillna (s : Series) : no_nan (fillna 0 s) = true.
Proof.
  unfold no_nan, fillna. induction s as [|[f|x] s IH]; simpl; [done| |done].
  rewrite IH. destruct (PrimFloat.is_nan f) eqn:Hf; simpl; [done|]. by rewrite Hf.
Qed.

(** X17: a [pct_chg] column that the normalizer computes holds no NaN,
    whatever the closes are; it has one value per row. *)
Theorem X17_computed_pct_chg_has_no_nan
    (h h' : store) (df r : loc) (d : DataFrame) (stock_code : string) :
  h !! df = Some d ->
  wf_frame d = true ->
  empty d = false ->
  has_column "pct_chg" d = false ->
  _normalize_data STANDARD_COLUMNS df stock_code h = (Return r, h') ->
  exists d' pcs,
    h' !! df = Some d' /\
    lookup_column "pct_chg" (cols d') = Some pcs /\
    length pcs = nrows d /\
    no_nan pcs = true /\
    ("pct_chg" ∈ STANDARD_COLUMNS ->
     exists out, h' !! r = Some out /\ lookup_column "pct_chg" (cols out) = Some pcs).
Proof.
  intros Hd Hwf He Hpct. rewrite (normalize_run _ _ _ _ _ Hd), He.
  assert (df < length h) as Hlt by (by eapply lookup_lt_Some).
  destruct (pct_chg_step pct_change_pads d) as [d1|e] eqn:Hstep; [|done].
  destruct (pct_chg_step_returns _ _ _ Hstep)
    as [[Hyes _]|[_ (s & Hclose & Hnum & ->)]]; [congruence|].
  destruct (select_after_ensure (setitem "pct_chg"
              (pct_series pct_change_pads (floats_of s)) d))
    as (out & -> & Hrows & Hcols & Hlook).
  intros [= <- <-].
  eexists _, (pct_series pct_change_pads (floats_of s)).
  split; [rewrite lookup_app_l by (by rewrite length_insert);
          by apply list_lookup_insert_eq|].
  split; [by rewrite lookup_ensure_columns, lookup_setitem|].
  split.
  { rewrite length_pct_series, (length_floats_of _ Hnum).
    by apply (wf_frame_column_length d "close"). }
  split; [apply no_nan_fillna|].
  intros Hstd. exists out.
  split; [apply list_lookup_middle; by rewrite length_insert|].
  by rewrite (Hlook _ Hstd), lookup_ensure_columns, lookup_setitem.
Qed.

End NormalizerMore.

(** ** The pandas version *)

Section VersionFacts.
Variable STANDARD_COLUMNS : list string.
Import Pandas Store Steps Checks.

Lemma ffill_from_without_nan prev l :
  forallb (fun x => negb (PrimFloat.is_nan x)) l = true -> ffill_from prev l = l.
Proof.
  revert prev. induction l as [|x l IH]; intros prev; simpl; [done|].
  intros [Hx Hl]%andb_true_iff. apply negb_true_iff in Hx. rewrite Hx.
  by rewrite IH.
Qed.

Lemma floats_without_nan s :
  no_nan s = true ->
  forallb (fun x => negb (PrimFloat.is_nan x)) (floats_of s) = true.
Proof.
  unfold no_nan. induction s as [|[f|x] s IH]; [done| |].
  - rewrite floats_of_cons. cbn [forallb].
    intros [Hf Hs]%andb_true_iff. by rewrite Hf, IH.
  - change (floats_of (CStr x :: s)) with (floats_of s). cbn [forallb].
    intros Hs. by apply IH.
Qed.

Lemma pct_change_without_nan pad s :
  no_nan s = true -> pct_change pad s = pct_change false s.
Proof.
  intros Hs. unfold pct_change.
  destruct (as_float_cases s) as [[_ ->]|[_ ->]]; [|done].
  destruct pad; [|done]. unfold ffill.
  by rewrite ffill_from_without_nan by (by apply floats_without_nan).
Qed.

(** X18: the result does not depend on the pandas version unless [close]
    holds a NaN: two installations that differ in whether [pct_change]
    pads, in the SDK, or in [strptime], normalize any frame whose
    [close] column (if it has one) is free of NaN in the same way, with
    the same result, the same store afterwards and the same exception
    if any. *)
Theorem X18_pandas_version_matters_only_for_nan
    (L1 L2 : Libraries) (h : store) (df : loc) (d : DataFrame) (stock_code : string) :
  h !! df = Some d ->
  match lookup_column "close" (cols d) with
  | Some s => no_nan s = true
  | None => True
  end ->
  @_normalize_data L1 STANDARD_COLUMNS df stock_code h
    = @_normalize_data L2 STANDARD_COLUMNS df stock_code h.
Proof.
  intros Hd Hclose.
  rewrite (@normalize_run L1 _ _ _ _ _ Hd), (@normalize_run L2 _ _ _ _ _ Hd).
  assert (pct_chg_step (@pct_change_pads L1) d = pct_chg_step (@pct_change_pads L2) d)
    as ->; [|done].
  unfold pct_chg_step, getitem at 1 3.
  destruct (has_column "pct_chg" d); [done|].
  destruct (lookup_column "close" (cols d)) as [s|]; [|done].
  by rewrite (pct_change_without_nan (@pct_change_pads L1) s Hclose),
    (pct_change_without_nan (@pct_change_pads L2) s Hclose).
Qed.

End VersionFacts.

(** * The further properties on concrete inputs *)

Section MoreRuns.
Import PyStr Symbol Partition Pandas Steps Checks Scripted.

(** Not idempotent: a lower-case code is uppercased on the second pass
    only; and a BJ symbol is not uppercased at all. *)
Example translate_aapl_twice :
  _convert_to_longport_symbol "aapl" = "aapl.US" /\
  _convert_to_longport_symbol "aapl.US" = "AAPL.US" /\
  _convert_to_longport_symbol "830799.bj" = "830799.bj".
Proof. repeat split; reflexivity. Qed.

Lemma X2_witness_connected :
  ctx (fetcher false (Some two_candles)) = Some two_candles
  <-> @ready_to_connect (libs false) (install false true (Return two_candles))
        full_config = true /\
      @constructed (libs false) (install false true (Return two_candles))
        full_config = Return two_candles.
Proof.
  exact (@X2_handle_set_iff_connected (libs false)
           (install false true (Return two_candles)) full_config quiet
           (mkWorld [(INFO, "LongPort QuoteContext initialized successfully")] [])
           (fetcher false (Some two_candles)) two_candles eq_refl).
Defined.

(** A missing secret is not caught by the guard: it reaches [Config],
    whose refusal is logged. *)
Example init_without_secret :
  @__init__ (libs false) (install false true (Return two_candles))
    no_secret_config quiet
  = (Return (fetcher false None),
     mkWorld [(ERROR, "Failed to initialize LongPort context: app_secret must be a string")]
       []).
Proof. vm_compute. reflexivity. Qed.

Lemma X3_witness_no_token :
  exists self w1,
    @__init__ (libs false) (install false true (Return two_candles))
      no_token_config quiet = (Return self, w1) /\
    _fetch_raw_data self "600519" "2024-01-01" "2024-01-31" w1
      = (Raise (DataFetchError not_initialized), w1).
Proof.
  exact (@X3_failed_init_disables_fetch (libs false)
           (install false true (Return two_candles)) no_token_config quiet
           "600519" "2024-01-01" "2024-01-31" (or_introl eq_refl)).
Defined.

Lemma X8_witness_two_candles :
  _fetch_raw_data (fetcher false (Some two_candles))
    "600519" "2024-01-01" "2024-01-31" quiet
    = (Return (frame_of_rows two_rows),
       mkWorld (log quiet)
         (sent quiet ++ [mkRequest (Symbol._convert_to_longport_symbol "600519")
                           Day ForwardAdjust (mkDate 2024 1 1) (mkDate 2024 1 31)])) /\
  nrows (frame_of_rows two_rows) = length [candle_1; candle_2] /\
  columns (frame_of_rows two_rows) = raw_columns /\
  empty (frame_of_rows two_rows) = false.
Proof.
  exact (@X8_fetch_returns_one_row_per_candle (libs false)
           (fetcher false (Some two_candles)) two_candles
           "600519" "2024-01-01" "2024-01-31" (mkDate 2024 1 1) (mkDate 2024 1 31)
           [candle_1; candle_2] two_rows quiet
           eq_refl eq_refl eq_refl eq_refl ltac:(discriminate) eq_refl).
Defined.

Lemma X10_witness_provider_down :
  match fst (_fetch_raw_data (fetcher false (Some provider_down))
               "600519" "2024-01-01" "2024-01-31" quiet) with
  | Raise e =>
      exists cause,
        e = DataFetchError ("LongPort fetch error: " +:+ cause) /\
        log (snd (_fetch_raw_data (fetcher false (Some provider_down))
                    "600519" "2024-01-01" "2024-01-31" quiet)) =
          log quiet ++ [(ERROR, "Error fetching data from LongPort for " +:+
                            Symbol._convert_to_longport_symbol "600519" +:+
                            ": " +:+ cause)]
  | Return d =>
      if empty d
      then exists msg,
             log (snd (_fetch_raw_data (fetcher false (Some provider_down))
                         "600519" "2024-01-01" "2024-01-31" quiet)) =
               log quiet ++ [(WARNING, msg)]
      else log (snd (_fetch_raw_data (fetcher false (Some provider_down))
                       "600519" "2024-01-01" "2024-01-31" quiet)) = log quiet
  end.
Proof.
  exact (@X10_log_of_a_fetch (libs false) (fetcher false (Some provider_down))
           provider_down "600519" "2024-01-01" "2024-01-31" quiet eq_refl).
Defined.

Lemma X11_witness_two_candles :
  wf_frame (frame_of_rows two_rows) = true /\
  normalizable (frame_of_rows two_rows) = true /\
  has_column "pct_chg" (frame_of_rows two_rows) = false /\
  (frame_of_rows two_rows = empty_frame \/
   (empty (frame_of_rows two_rows) = false /\
    columns (frame_of_rows two_rows) = raw_columns /\
    numeric_close (frame_of_rows two_rows) = true)).
Proof.
  exact (@X11_fetched_table_is_normalizable (libs false)
           (fetcher false (Some two_candles))
           "600519" "2024-01-01" "2024-01-31" quiet (frame_of_rows two_rows) eq_refl).
Defined.


Lemma X13_witness_two_candles :
  exists (h' : store) (out : DataFrame),
    @_normalize_data (libs false) STANDARD_COLUMNS_base (length (@nil DataFrame))
      "600519" ([] ++ [frame_of_rows two_rows])
      = (Return (S (length (@nil DataFrame))), h') /\
    h' !! S (length (@nil DataFrame)) = Some out /\
    columns out = STANDARD_COLUMNS_base /\
    nrows out = nrows (frame_of_rows two_rows) /\
    forall col v,
      col ∈ STANDARD_COLUMNS_base ->
      lookup_column col (cols (frame_of_rows two_rows)) = Some v ->
      lookup_column col (cols out) = Some v.
Proof.
  exact (@X13_fetch_then_normalize (libs false) STANDARD_COLUMNS_base
           (fetcher false (Some two_candles))
           "600519" "2024-01-01" "2024-01-31" quiet (frame_of_rows two_rows) []
           eq_refl).
Defined.

(** The whole path on two candles: the table that comes out. *)
Example fetch_then_normalize_two_candles :
  snd (@_normalize_data (libs false) STANDARD_COLUMNS_base 0 "600519"
         [frame_of_rows two_rows]) !! 1
  = Some (mkDataFrame 2
      [ ("date", [CStr "2024-01-02"; CStr "2024-01-03"]);
        ("open", [CFloat 10; CFloat 10]);
        ("high", [CFloat 12; CFloat 13]);
        ("low", [CFloat 9; CFloat 10]);
        ("close", [CFloat 10; CFloat 12.5]);
        ("volume", [CFloat 1000; CFloat 2000]);
        ("amount", [CFloat 10000; CFloat 25000]);
        ("pct_chg", [CFloat 0; CFloat 25]) ]).
Proof. vm_compute. reflexivity. Qed.

Lemma X14_witness_no_amount :
  (exists d',
     snd (@_normalize_data (libs false) STANDARD_COLUMNS_base 0 "600519" [no_amount])
       !! 0 = Some d' /\
     wf_frame d' = true) /\
  (NoDup STANDARD_COLUMNS_base ->
   exists out,
     snd (@_normalize_data (libs false) STANDARD_COLUMNS_base 0 "600519" [no_amount])
       !! 1 = Some out /\
     wf_frame out = true).
Proof.
  exact (@X14_frames_stay_well_formed (libs false) STANDARD_COLUMNS_base
           [no_amount]
           (snd (@_normalize_data (libs false) STANDARD_COLUMNS_base 0 "600519"
                   [no_amount]))
           0 1 no_amount "600519" eq_refl eq_refl eq_refl).
Defined.

Lemma X15_witness_closes_10_12 :
  exists out,
    snd (@_normalize_data (libs false) STANDARD_COLUMNS_base 0 "600519" [closes_10_12])
      !! 1 = Some out /\
    @_normalize_data (libs false) STANDARD_COLUMNS_base 1 "000001"
      (snd (@_normalize_data (libs false) STANDARD_COLUMNS_base 0 "600519"
              [closes_10_12]))
    = (Return
         (length (snd (@_normalize_data (libs false) STANDARD_COLUMNS_base 0 "600519"
                         [closes_10_12]))),
       snd (@_normalize_data (libs false) STANDARD_COLUMNS_base 0 "600519"
              [closes_10_12]) ++ [out]).
Proof.
  refine (@X15_normalizing_twice (libs false) STANDARD_COLUMNS_base
            [closes_10_12]
            (snd (@_normalize_data (libs false) STANDARD_COLUMNS_base 0 "600519"
                    [closes_10_12]))
            0 1 closes_10_12 "600519" "000001" _ eq_refl eq_refl).
  unfold STANDARD_COLUMNS_base. repeat constructor.
Defined.

Lemma X16_witness_complete_table :
  exists out,
    select STANDARD_COLUMNS_base complete_table = Return out /\
    @_normalize_data (libs false) STANDARD_COLUMNS_base 0 "600519" [complete_table]
      = (Return (length [complete_table]), [complete_table] ++ [out]).
Proof.
  refine (@X16_complete_table_is_left_alone (libs false) STANDARD_COLUMNS_base
            [complete_table] 0 complete_table "600519" eq_refl eq_refl eq_refl _).
  intros c Hc. unfold STANDARD_COLUMNS_base in Hc.
  repeat (apply elem_of_cons in Hc as [->|Hc]; [reflexivity|]).
  by apply elem_of_nil in Hc.
Defined.

Lemma X17_witness_closes_0_0 :
  exists d' pcs,
    snd (@_normalize_data (libs true) STANDARD_COLUMNS_base 0 "600519" [closes_0_0])
      !! 0 = Some d' /\
    lookup_column "pct_chg" (cols d') = Some pcs /\
    length pcs = nrows closes_0_0 /\
    no_nan pcs = true /\
    ("pct_chg" ∈ STANDARD_COLUMNS_base ->
     exists out,
       snd (@_normalize_data (libs true) STANDARD_COLUMNS_base 0 "600519" [closes_0_0])
         !! 1 = Some out /\
       lookup_column "pct_chg" (cols out) = Some pcs).
Proof.
  exact (@X17_computed_pct_chg_has_no_nan (libs true) STANDARD_COLUMNS_base
           [closes_0_0]
           (snd (@_normalize_data (libs true) STANDARD_COLUMNS_base 0 "600519"
                   [closes_0_0]))
           0 1 closes_0_0 "600519" eq_refl eq_refl eq_refl eq_refl eq_refl).
Defined.

Lemma X18_witness_closes_10_12 :
  @_normalize_data (libs true) STANDARD_COLUMNS_base 0 "600519" [closes_10_12]
  = @_normalize_data (libs false) STANDARD_COLUMNS_base 0 "600519" [closes_10_12].
Proof.
  exact (X18_pandas_version_matters_only_for_nan STANDARD_COLUMNS_base
           (libs true) (libs false) [closes_10_12] 0 closes_10_12 "600519"
           eq_refl eq_refl).
Defined.

(** With a NaN among the closes the two versions part. *)
Example versions_part_on_nan :
  @_normalize_data (libs true) STANDARD_COLUMNS_base 0 "600519"
    [mkDataFrame 3 [("close", [CFloat 1; CFloat PrimFloat.nan; CFloat 2])]]
  <> @_normalize_data (libs false) STANDARD_COLUMNS_base 0 "600519"
       [mkDataFrame 3 [("close", [CFloat 1; CFloat PrimFloat.nan; CFloat 2])]].
Proof.
  intros Heq.
  apply (f_equal (fun r => match snd r !! 1 with
                           | Some out =>
                               match at_ "pct_chg" 2 out with
                               | Some (CFloat x) => PrimFloat.eqb x 0
                               | _ => false
                               end
                           | None => false
                           end)) in Heq.
  vm_compute in Heq. discriminate.
Qed.

End MoreRuns.

(** ** Letter case and the quote level *)

Section CaseFacts.
Import PyStr Symbol.

(** X19: an ASCII code whose suffix is SH, SZ, HK or US is read without
    regard to letter case: any ASCII spelling with the same capitals
    gives the same symbol. *)
Theorem X19_known_suffix_ignores_case (stock_code other : string) :
  is_ascii stock_code = true ->
  is_ascii other = true ->
  fst (convert_traced stock_code) = KnownSuffix ->
  upper other = upper stock_code ->
  _convert_to_longport_symbol other = _convert_to_longport_symbol stock_code.
Proof.
  intros _ _ Hbranch Hup.
  assert (upper (strip other) = upper (strip stock_code)) as Hstrip
    by (by rewrite <- !strip_upper, Hup).
  unfold _convert_to_longport_symbol.
  destruct (convert_cases stock_code)
    as [(Hdot & Hk & Hc)|[(_ & _ & Hc)|(_ & b & suffix & Hc & Hsuf)]];
    rewrite Hc in Hbranch |- *; simpl in Hbranch; [|done|].
  - unfold convert_traced.
    rewrite <- contains_dot_upper, <- Hstrip, contains_dot_upper in Hdot.
    rewrite <- upper_twice, <- after_last_dot_upper, <- Hstrip, after_last_dot_upper,
      upper_twice in Hk.
    rewrite Hdot, last_part_split, Hk. simpl. done.
  - subst b. destruct Hsuf as [[? _]|(_ & ? & _)]; done.
Qed.

End CaseFacts.

Section QuoteLevelFacts.
Context `{Installation}.

(** X20: the quote level of the configuration has no effect on the
    construction: the fetcher and the log are the same for any two
    values of it. *)
Theorem X20_quote_level_has_no_effect
    (key secret token level1 level2 : option string)
    (self : LongPortFetcher) (w : world) :
  _init_context (mkAppConfig key secret token level1) self w
  = _init_context (mkAppConfig key secret token level2) self w.
Proof. by rewrite !init_context_run. Qed.

End QuoteLevelFacts.

Section CaseRuns.
Import PyStr Symbol.

Lemma X19_witness_aapl_us :
  _convert_to_longport_symbol "aapl.Us" = _convert_to_longport_symbol "AAPL.us".
Proof.
  exact (X19_known_suffix_ignores_case "AAPL.us" "aapl.Us"
           eq_refl eq_refl eq_refl eq_refl).
Defined.

End CaseRuns.

(** * The translator on Python strings *)

Section UnicodeFacts.
Import Unicode.
Context `{Tables}.

Lemma usplit_without_separator c s :
  contains c s = false -> split c s = [s].
Proof.
  induction s as [|d s IH]; simpl; [done|].
  destruct (N.eqb d c); [done|]. intros Hs. by rewrite (IH Hs).
Qed.

Lemma usplit_with_separator c s :
  contains c s = true -> exists p q ps, split c s = p :: q :: ps.
Proof.
  induction s as [|d s IH]; simpl; [done|].
  destruct (N.eqb d c).
  - intros _. destruct (contains c s) eqn:Hs.
    + destruct (IH eq_refl) as (p & q & ps & ->). by exists [], p, (q :: ps).
    + rewrite (usplit_without_separator _ _ Hs). by exists [], s, [].
  - intros Hs. destruct (IH Hs) as (p & q & ps & ->). by exists (d :: p), q, ps.
Qed.

(** [s.split(c)[-1]] is the text after the last [c]. *)
Lemma ulast_part_split c s : last_part (split c s) = after_last c s.
Proof.
  unfold last_part. induction s as [|d s IH]; [done|].
  cbn [split after_last].
  destruct (contains c s) eqn:Hs.
  - destruct (usplit_with_separator _ _ Hs) as (p & q & ps & Hsplit).
    rewrite Hsplit in IH |- *. rewrite <- IH. by destruct (N.eqb d c).
  - rewrite (usplit_without_separator _ _ Hs) in IH |- *.
    by destruct (N.eqb d c).
Qed.

Lemma ucontains_app c s t :
  contains c (s ++ t) = contains c s || contains c t.
Proof.
  induction s as [|d s IH]; simpl; [done|]. by destruct (N.eqb d c).
Qed.

Lemma uafter_last_app c u t :
  contains c t = false -> after_last c (u ++ c :: t) = t.
Proof.
  intros Ht. induction u as [|d u IH]; simpl.
  - by rewrite Ht, N.eqb_refl.
  - rewrite ucontains_app. simpl. by rewrite N.eqb_refl, orb_true_r.
Qed.

Lemma ubefore_last_app c u t :
  contains c t = false -> before_last c (u ++ c :: t) = u.
Proof.
  intros Ht. induction u as [|d u IH]; simpl.
  - by rewrite Ht.
  - rewrite ucontains_app. simpl. by rewrite N.eqb_refl, orb_true_r, IH.
Qed.

(** Without a separator the translator appends the suffix of the first
    rule that matches, and ".SZ" when none does. *)
Lemma uconvert_without_separator s :
  contains dot (strip s) = false ->
  _convert_to_longport_symbol s =
    strip s ++
      match first_match rules (strip s) with
      | Some suffix => suffix
      | None => lit ".SZ"
      end.
Proof.
  intros Hdot. unfold _convert_to_longport_symbol, convert_traced.
  rewrite Hdot. cbn [first_match rules].
  destruct (startswith (lit "6") (strip s)); [done|].
  destruct (startswith (lit "00") (strip s) || startswith (lit "30") (strip s)); [done|].
  destruct (startswith (lit "8") (strip s) || startswith (lit "4") (strip s)); [done|].
  destruct (startswith (lit "0") (strip s) && (len (strip s) =? 5)%nat); [done|].
  destruct (isdigit (strip s) && (len (strip s) <=? 5)%nat); [done|].
  destruct (isalpha (strip s)); done.
Qed.

(** C5: for every Python string and every table of the interpreter, a
    code with no market separator gets the suffix of the first of the
    six rules that matches the trimmed code: "6" gives .SH; "00" or "30"
    gives .SZ; "8" or "4" gives .BJ; "0" and length 5 gives .HK; all
    digits and length at most 5 gives .HK; all letters gives .US. *)
Theorem C5_first_matching_rule_on_str (stock_code suffix : list N) :
  contains dot (strip stock_code) = false ->
  first_match rules (strip stock_code) = Some suffix ->
  _convert_to_longport_symbol stock_code = strip stock_code ++ suffix.
Proof.
  intros Hdot Hrule. rewrite (uconvert_without_separator _ Hdot). by rewrite Hrule.
Qed.

(** C6: for every Python string and every table of the interpreter, a
    code with a market separator is returned uppercased when the
    uppercased text after its last "." is SH, SZ, HK or US, and is
    returned as it is (trimmed) otherwise. *)
Theorem C6_suffixed_code_on_str (stock_code : list N) :
  contains dot (strip stock_code) = true ->
  _convert_to_longport_symbol stock_code =
    if in_list (upper (after_last dot (strip stock_code)))
         [lit "SH"; lit "SZ"; lit "HK"; lit "US"]
    then upper (strip stock_code)
    else strip stock_code.
Proof.
  intros Hdot. unfold _convert_to_longport_symbol, convert_traced.
  rewrite Hdot, ulast_part_split. unfold known_suffixes.
  by destruct (in_list _ _).
Qed.

(** X4: for a code without a separator the translation can be read
    back, whatever the tables are: the text before the last "." of the
    symbol is the trimmed code, and the text after it is one of SH, SZ,
    BJ, HK, US. *)
Theorem X4_symbol_reads_back_on_str (stock_code : list N) :
  contains dot (strip stock_code) = false ->
  before_last dot (_convert_to_longport_symbol stock_code) = strip stock_code /\
  In (after_last dot (_convert_to_longport_symbol stock_code))
    [lit "SH"; lit "SZ"; lit "BJ"; lit "HK"; lit "US"].
Proof.
  intros Hdot. rewrite (uconvert_without_separator _ Hdot).
  assert (forall t, contains dot t = false ->
            In t [lit "SH"; lit "SZ"; lit "BJ"; lit "HK"; lit "US"] ->
            before_last dot (strip stock_code ++ dot :: t) = strip stock_code /\
            In (after_last dot (strip stock_code ++ dot :: t))
              [lit "SH"; lit "SZ"; lit "BJ"; lit "HK"; lit "US"]) as Hread.
  { intros t Ht Hin. by rewrite ubefore_last_app, uafter_last_app. }
  cbn [first_match rules].
  destruct (startswith (lit "6") (strip stock_code));
    [apply (Hread (lit "SH")); [done|simpl; tauto]|].
  destruct (startswith (lit "00") (strip stock_code) ||
            startswith (lit "30") (strip stock_code));
    [apply (Hread (lit "SZ")); [done|simpl; tauto]|].
  destruct (startswith (lit "8") (strip stock_code) ||
            startswith (lit "4") (strip stock_code));
    [apply (Hread (lit "BJ")); [done|simpl; tauto]|].
  destruct (startswith (lit "0") (strip stock_code) &&
            (len (strip stock_code) =? 5)%nat);
    [apply (Hread (lit "HK")); [done|simpl; tauto]|].
  destruct (isdigit (strip stock_code) && (len (strip stock_code) <=? 5)%nat);
    [apply (Hread (lit "HK")); [done|simpl; tauto]|].
  destruct (isalpha (strip stock_code));
    [apply (Hread (lit "US")); [done|simpl; tauto]|].
  apply (Hread (lit "SZ")); [done|simpl; tauto].
Qed.

End UnicodeFacts.

Section UnicodeRuns.
Import Unicode.

(** The full-width digits of "６００５１９" are digits and no "6": with a
    table that knows them the code is too long for the HK rule and
    falls through to ".SZ", as it does in Python. *)
Example convert_full_width :
  @convert_traced
    {| cp_isspace := unicode_whitespace;
       cp_isdigit := fun c => between 48 57 c || between 65296 65305 c;
       cp_isalpha := fun c => between 65 90 c || between 97 122 c;
       cp_upper := fun c => [c] |}
    [65302; 65296; 65296; 65301; 65297; 65305]%N
  = (Symbol.FallbackSZ, [65302; 65296; 65296; 65301; 65297; 65305]%N ++ lit ".SZ").
Proof. vm_compute. reflexivity. Qed.

(** An ideographic space (U+3000) around the code is trimmed. *)
Example convert_ideographic_space :
  @_convert_to_longport_symbol ascii_tables ([12288%N] ++ lit "600519" ++ [12288%N])
  = lit "600519.SH".
Proof. vm_compute. reflexivity. Qed.

Lemma C5_witness_str_600519 :
  @_convert_to_longport_symbol ascii_tables (lit " 600519 ")
  = @strip ascii_tables (lit " 600519 ") ++ lit ".SH".
Proof.
  apply (@C5_first_matching_rule_on_str ascii_tables (lit " 600519 ") (lit ".SH"));
    reflexivity.
Defined.

Lemma C6_witness_str_abc_xx :
  @_convert_to_longport_symbol ascii_tables (lit "ABC.xx") = lit "ABC.xx" /\
  @_convert_to_longport_symbol ascii_tables (lit " 700.hk ") = lit "700.HK".
Proof.
  split.
  - exact (@C6_suffixed_code_on_str ascii_tables (lit "ABC.xx") eq_refl).
  - exact (@C6_suffixed_code_on_str ascii_tables (lit " 700.hk ") eq_refl).
Defined.

Lemma X4_witness_str_600519 :
  before_last dot (@_convert_to_longport_symbol ascii_tables (lit " 600519 "))
    = @strip ascii_tables (lit " 600519 ") /\
  In (after_last dot (@_convert_to_longport_symbol ascii_tables (lit " 600519 ")))
    [lit "SH"; lit "SZ"; lit "BJ"; lit "HK"; lit "US"].
Proof.
  exact (@X4_symbol_reads_back_on_str ascii_tables (lit " 600519 ") eq_refl).
Defined.

End UnicodeRuns.

Section AsciiRuns.
Import PyStr Symbol.

Lemma X5_witness_padded_code :
  contains "."%char (_convert_to_longport_symbol "  aapl ") = true /\
  strip (_convert_to_longport_symbol "  aapl ")
    = _convert_to_longport_symbol "  aapl ".
Proof. exact (X5_symbol_is_trimmed_and_suffixed "  aapl " eq_refl). Defined.

(** Not idempotent: "aapl" gives "aapl.US", and that gives "AAPL.US". *)
Lemma X6_witness_aapl :
  _convert_to_longport_symbol (_convert_to_longport_symbol "aapl") =
    match fst (convert_traced "aapl") with
    | UnknownSuffix | RuleBJ => _convert_to_longport_symbol "aapl"
    | _ => upper (_convert_to_longport_symbol "aapl")
    end.
Proof. exact (X6_translating_twice "aapl" eq_refl). Defined.

Lemma X7_witness_aapl :
  _convert_to_longport_symbol
    (_convert_to_longport_symbol (_convert_to_longport_symbol "aapl"))
  = _convert_to_longport_symbol (_convert_to_longport_symbol "aapl").
Proof. exact (X7_third_translation_changes_nothing "aapl" eq_refl). Defined.

End AsciiRuns.

(** * Raises that [except Exception] does not catch *)

Section InterruptFacts.
Context `{Libraries}.
Variable interrupted : QuoteContext -> request -> option (string * string).

(** A provider call that ends in a raise that is no instance of
    [Exception] leaves [_fetch_raw_data] with that raise: the request
    was sent, nothing was logged and no [DataFetchError] was made. *)
Lemma interrupt_propagates
    (self : LongPortFetcher) (c : QuoteContext)
    (stock_code start_date end_date : string) (start end_ : date)
    (cls msg : string) (w : world) :
  ctx self = Some c ->
  strptime_date start_date = Return start ->
  strptime_date end_date = Return end_ ->
  interrupted c (mkRequest (Symbol._convert_to_longport_symbol stock_code)
                   Day ForwardAdjust start end_) = Some (cls, msg) ->
  _fetch_raw_data_interruptible interrupted self stock_code start_date end_date w
    = (Propagates cls msg,
       mkWorld (log w)
         (sent w ++ [mkRequest (Symbol._convert_to_longport_symbol stock_code)
                       Day ForwardAdjust start end_])).
Proof.
  intros Hctx Hs He Hint. unfold _fetch_raw_data_interruptible.
  by rewrite Hctx, Hs, He, Hint.
Qed.

(** Without such a raise the call is [_fetch_raw_data]. *)
Lemma uninterrupted_is_fetch
    (self : LongPortFetcher) (stock_code start_date end_date : string) (w : world) :
  (forall c r, interrupted c r = None) ->
  _fetch_raw_data_interruptible interrupted self stock_code start_date end_date w
    = (Done (fst (_fetch_raw_data self stock_code start_date end_date w)),
       snd (_fetch_raw_data self stock_code start_date end_date w)).
Proof.
  intros Hnone. unfold _fetch_raw_data_interruptible.
  destruct (ctx self) as [c|]; [|done].
  destruct (strptime_date start_date); [|done].
  destruct (strptime_date end_date); [|done].
  by rewrite Hnone.
Qed.

End InterruptFacts.

Section RevisedRuns.
Import Pandas Checks Scripted.

(** The claim C3 as it is stated fails for a raise that is no instance
    of [Exception]: a [KeyboardInterrupt] during the provider call is
    not caught by [except Exception]; it reaches the caller as it is,
    no [DataFetchError] is raised and nothing is logged. *)
Lemma C3_counterexample_keyboard_interrupt :
  @_fetch_raw_data_interruptible (libs false)
    (fun _ _ => Some ("KeyboardInterrupt", ""))
    (fetcher false (Some two_candles)) "600519" "2024-01-01" "2024-01-31" quiet
  = (Propagates "KeyboardInterrupt" "",
     mkWorld []
       [mkRequest "600519.SH" Day ForwardAdjust (mkDate 2024 1 1) (mkDate 2024 1 31)]).
Proof. vm_compute. reflexivity. Qed.

(** The claim C8 as it is stated fails on the shape: the table returned
    for no candles has no column at all, neither the seven columns of
    every other fetched table nor the standard ones. *)
Lemma C8_counterexample_no_columns :
  fst (_fetch_raw_data (fetcher false (Some no_candles))
         "600519" "2024-01-01" "2024-01-31" quiet) = Return empty_frame /\
  columns empty_frame = [] /\
  fst (_fetch_raw_data (fetcher false (Some two_candles))
         "600519" "2024-01-01" "2024-01-31" quiet) = Return (frame_of_rows two_rows) /\
  columns (frame_of_rows two_rows) = raw_columns /\
  columns empty_frame <> raw_columns /\
  columns empty_frame <> STANDARD_COLUMNS_base.
Proof. repeat split; try (vm_compute; reflexivity); discriminate. Qed.

End RevisedRuns.

(** * The two translators agree on ASCII text *)

Section Agreement.
Import Unicode.

(** Below 128 the tables of [ascii_tables] are the predicates of
    [PyStr]. *)
Lemma isspace_agrees c :
  (nat_of_ascii c <? 128)%nat = true ->
  unicode_whitespace (N_of_ascii c) = PyStr.isspace c.
Proof.
  destruct c as [[] [] [] [] [] [] [] []]; intros Hc;
    first [reflexivity | vm_compute in Hc; discriminate Hc].
Qed.

Lemma isdigit_agrees c : between 48 57 (N_of_ascii c) = PyStr.isdigit_char c.
Proof. destruct c as [[] [] [] [] [] [] [] []]; reflexivity. Qed.

Lemma isalpha_agrees c :
  between 65 90 (N_of_ascii c) || between 97 122 (N_of_ascii c)
  = PyStr.isalpha_char c.
Proof. destruct c as [[] [] [] [] [] [] [] []]; reflexivity. Qed.

Lemma upper_agrees c :
  @cp_upper ascii_tables (N_of_ascii c) = [N_of_ascii (PyStr.upper_char c)].
Proof. destruct c as [[] [] [] [] [] [] [] []]; reflexivity. Qed.

Lemma eqb_agrees d c : N.eqb (N_of_ascii d) (N_of_ascii c) = Ascii.eqb d c.
Proof.
  destruct (Ascii.eqb d c) eqn:Hdc.
  - apply Ascii.eqb_eq in Hdc as ->. apply N.eqb_refl.
  - apply N.eqb_neq. intros Heq. apply Ascii.eqb_neq in Hdc. apply Hdc.
    by rewrite <- (ascii_N_embedding d), <- (ascii_N_embedding c), Heq.
Qed.

Lemma lit_cons c s : lit (String c s) = N_of_ascii c :: lit s.
Proof. reflexivity. Qed.

Lemma lit_append s t : lit (s +:+ t) = lit s ++ lit t.
Proof.
  induction s as [|c s IH]; [done|].
  change (String c s +:+ t) with (String c (s +:+ t)).
  rewrite !lit_cons, IH. done.
Qed.

Lemma lit_is_nil s : lit s = [] -> s = EmptyString.
Proof. by destruct s. Qed.

Lemma contains_agrees c s :
  contains (N_of_ascii c) (lit s) = PyStr.contains c s.
Proof.
  induction s as [|d s IH]; [done|].
  rewrite lit_cons. simpl. by rewrite eqb_agrees, IH.
Qed.

Lemma after_last_agrees c s :
  after_last (N_of_ascii c) (lit s) = lit (PyStr.after_last c s).
Proof.
  induction s as [|d s IH]; [done|].
  rewrite lit_cons. cbn [after_last PyStr.after_last].
  rewrite contains_agrees, eqb_agrees, IH.
  destruct (PyStr.contains c s); [done|]. by destruct (Ascii.eqb d c).
Qed.

Lemma startswith_agrees p s :
  startswith (lit p) (lit s) = PyStr.startswith p s.
Proof.
  unfold PyStr.startswith. revert s.
  induction p as [|x p IH]; intros s; [by destruct s|].
  destruct s as [|y s]; [done|].
  rewrite !lit_cons. simpl. rewrite eqb_agrees, IH.
  destruct (ascii_dec x y) as [->|Hne].
  - by rewrite Ascii.eqb_refl.
  - apply Ascii.eqb_neq in Hne. by rewrite Hne.
Qed.

Lemma str_eqb_agrees a b : str_eqb (lit a) (lit b) = String.eqb a b.
Proof.
  revert b. induction a as [|x a IH]; intros [|y b]; try done.
  rewrite !lit_cons. simpl. by rewrite eqb_agrees, IH.
Qed.

Lemma len_agrees s : len (lit s) = PyStr.len s.
Proof.
  unfold len, PyStr.len. induction s as [|c s IH]; [done|].
  rewrite lit_cons. simpl. by rewrite IH.
Qed.

Lemma all_digits_agree s :
  forallb (between 48 57) (lit s) = PyStr.all_chars PyStr.isdigit_char s.
Proof.
  induction s as [|c s IH]; [done|].
  rewrite lit_cons. cbn [forallb PyStr.all_chars]. by rewrite isdigit_agrees, IH.
Qed.

Lemma all_letters_agree s :
  forallb (fun c => between 65 90 c || between 97 122 c) (lit s)
  = PyStr.all_chars PyStr.isalpha_char s.
Proof.
  induction s as [|c s IH]; [done|].
  rewrite lit_cons. cbn [forallb PyStr.all_chars]. by rewrite isalpha_agrees, IH.
Qed.

Lemma isdigit_str_agrees s : @isdigit ascii_tables (lit s) = PyStr.isdigit s.
Proof.
  unfold isdigit, PyStr.isdigit. f_equal; [by destruct s|].
  exact (all_digits_agree s).
Qed.

Lemma isalpha_str_agrees s : @isalpha ascii_tables (lit s) = PyStr.isalpha s.
Proof.
  unfold isalpha, PyStr.isalpha. f_equal; [by destruct s|].
  exact (all_letters_agree s).
Qed.

Lemma upper_str_agrees s : @upper ascii_tables (lit s) = lit (PyStr.upper s).
Proof.
  induction s as [|c s IH]; [done|].
  rewrite lit_cons. cbn [upper PyStr.upper]. by rewrite upper_agrees, IH, lit_cons.
Qed.

Lemma lstrip_agrees s :
  is_ascii s = true -> @lstrip ascii_tables (lit s) = lit (PyStr.lstrip s).
Proof.
  unfold is_ascii. induction s as [|c s IH]; [done|].
  cbn [PyStr.all_chars]. intros [Hc Hs]%andb_true_iff.
  rewrite lit_cons. cbn [lstrip PyStr.lstrip cp_isspace ascii_tables].
  rewrite (isspace_agrees c Hc). destruct (PyStr.isspace c); [by apply IH|done].
Qed.

Lemma rstrip_agrees s :
  is_ascii s = true -> @rstrip ascii_tables (lit s) = lit (PyStr.rstrip s).
Proof.
  unfold is_ascii. induction s as [|c s IH]; [done|].
  cbn [PyStr.all_chars]. intros [Hc Hs]%andb_true_iff.
  rewrite lit_cons. cbn [rstrip PyStr.rstrip cp_isspace ascii_tables].
  rewrite (IH Hs), (isspace_agrees c Hc).
  destruct (PyStr.rstrip s); [by destruct (PyStr.isspace c)|done].
Qed.

Lemma is_ascii_lstrip s : is_ascii s = true -> is_ascii (PyStr.lstrip s) = true.
Proof.
  unfold is_ascii. induction s as [|c s IH]; [done|].
  cbn [PyStr.all_chars PyStr.lstrip]. intros [Hc Hs]%andb_true_iff.
  destruct (PyStr.isspace c); [by apply IH|]. cbn [PyStr.all_chars].
  by rewrite Hc, Hs.
Qed.

Lemma strip_agrees s :
  is_ascii s = true -> @strip ascii_tables (lit s) = lit (PyStr.strip s).
Proof.
  intros Hs. unfold strip, PyStr.strip.
  by rewrite (lstrip_agrees s Hs), (rstrip_agrees _ (is_ascii_lstrip s Hs)).
Qed.

(** On ASCII text the translator on code points, run with the tables of
    Python below 128, takes the same [return] and gives the same symbol
    as the translator on the strings of [PyStr]: there the two are one
    function. *)
Theorem translators_agree_on_ascii (stock_code : string) :
  is_ascii stock_code = true ->
  @convert_traced ascii_tables (lit stock_code)
  = (fst (Symbol.convert_traced stock_code),
     lit (snd (Symbol.convert_traced stock_code))).
Proof.
  intros Hs. unfold convert_traced, Symbol.convert_traced.
  rewrite (strip_agrees _ Hs), ulast_part_split, last_part_split.
  change dot with (N_of_ascii "."%char).
  rewrite contains_agrees, after_last_agrees, !upper_str_agrees.
  change (lit "6") with (lit "6"). rewrite !startswith_agrees.
  rewrite len_agrees, isdigit_str_agrees, isalpha_str_agrees.
  unfold in_list, Symbol.in_list, known_suffixes, Symbol.known_suffixes.
  cbn [existsb]. rewrite !str_eqb_agrees.
  destruct (PyStr.contains "." (PyStr.strip stock_code)).
  { by destruct (_ || _). }
  repeat (match goal with |- context [if ?b then _ else _] => destruct b end;
          [by cbn [fst snd]; rewrite lit_append|]).
  by cbn [fst snd]; rewrite lit_append.
Qed.

Lemma translators_agree_witness :
  @convert_traced ascii_tables (lit " aapl.us ")
  = (fst (Symbol.convert_traced " aapl.us "),
     lit (snd (Symbol.convert_traced " aapl.us "))).
Proof. exact (translators_agree_on_ascii " aapl.us " eq_refl). Defined.

End Agreement.
